(** * Razr: the orientation service (flip detector)

    A shallow embedding of [class OrientationService]
    (services/OrientationService.ts) and proofs about its debounce /
    hysteresis state machine.

    Conventions of the embedding.
    - A JavaScript [number] that holds a sensor reading, the EMA or a
      threshold is an IEEE-754 binary64 value: Rocq's primitive [float],
      whose [+], [*], [-], [abs] and [<?] round and compare exactly as the
      JavaScript operators do.
    - The two stability counters and [stableRequired] only ever hold small
      non-negative integers (they are incremented by 1, reset to 0 or
      decremented with [Math.max(0, _)]); they are [nat].
    - Observers are opaque functions.  An observer is represented by its
      identity (a [nat]), and calling it is recorded in a log of
      invocations, in call order.
    - Every method is a function from the object's state to its new state;
      the methods that can call observers also return the log.  A handler
      runs to completion before the next sample, and an observer does not
      call back into the service while it is being notified. *)

From Stdlib Require Import List Bool Arith Lia ZArith.
From Stdlib Require String Permutation DecimalString Ascii.
From Stdlib Require Import Floats.
Import ListNotations.

Set Warnings "-inexact-float".
Local Open Scope float_scope.
Local Open Scope nat_scope.
Local Open Scope list_scope.

(** ** Data model *)

(** [type OrientationCallback = (isFlipped: boolean) => void], by identity. *)
Definition OrientationCallback : Type := nat.

(** One call [callback(isFlipped)]. *)
Definition Invocation : Type := (OrientationCallback * bool)%type.

(** [Platform.OS] of react-native. *)
Inductive PlatformOS : Type := ios | android | windows | macos | web.

Definition isWeb (os : PlatformOS) : bool :=
  match os with web => true | _ => false end.

(** What the constructor observes of its surroundings. *)
Record Env : Type := {
  OS : PlatformOS;
  (* typeof window !== 'undefined' && 'DeviceOrientationEvent' in window *)
  hasDeviceOrientationEvent : bool;
  (* (DeviceOrientationEvent as any).requestPermission is truthy *)
  hasRequestPermission : bool
}.

(** The two raw sample sources, as far as the service is attached to them. *)
Record Sources : Type := {
  (* window has 'deviceorientation' -> this.webOrientationHandler *)
  windowListener : bool;
  (* DeviceMotion has the listener of startMobileOrientation *)
  deviceMotionListener : bool
}.

(** The private fields of the class. *)
Record OrientationService : Type := {
  callbacks : list OrientationCallback;
  isFlipped : bool;
  subscription : bool;            (* false: null *)
  webOrientationHandler : bool;   (* false: null *)
  emaZ : option float;            (* None: null *)
  alpha : float;
  flipEnterThreshold : float;
  flipExitThreshold : float;
  stableRequired : nat;
  flipStableCount : nat;
  unflipStableCount : nat
}.

(** [DeviceOrientationEvent]: only [beta : number | null] is read. *)
Record DeviceOrientationEvent : Type := { beta : option float }.

(** A JavaScript value, as far as [typeof _ === 'number'] tells them apart. *)
Inductive JsValue : Type :=
| JsUndefined
| JsNull
| JsBoolean (b : bool)
| JsNumber (x : float)
| JsString (s : String.string).

Definition typeofIsNumber (v : JsValue) : bool :=
  match v with JsNumber _ => true | _ => false end.

(** An acceleration object of expo's DeviceMotion payload: only [z] is read. *)
Record Acceleration : Type := { z : JsValue }.

(** The payload; [None] is a field that is null or undefined. *)
Record DeviceMotionMeasurement : Type := {
  accelerationIncludingGravity : option Acceleration;
  acceleration : option Acceleration
}.

(** ** Field updates *)

Definition set_callbacks (cbs : list OrientationCallback) (s : OrientationService)
  : OrientationService :=
  {| callbacks := cbs; isFlipped := isFlipped s;
     subscription := subscription s;
     webOrientationHandler := webOrientationHandler s;
     emaZ := emaZ s; alpha := alpha s;
     flipEnterThreshold := flipEnterThreshold s;
     flipExitThreshold := flipExitThreshold s;
     stableRequired := stableRequired s;
     flipStableCount := flipStableCount s;
     unflipStableCount := unflipStableCount s |}.

Definition set_isFlipped (b : bool) (s : OrientationService) : OrientationService :=
  {| callbacks := callbacks s; isFlipped := b;
     subscription := subscription s;
     webOrientationHandler := webOrientationHandler s;
     emaZ := emaZ s; alpha := alpha s;
     flipEnterThreshold := flipEnterThreshold s;
     flipExitThreshold := flipExitThreshold s;
     stableRequired := stableRequired s;
     flipStableCount := flipStableCount s;
     unflipStableCount := unflipStableCount s |}.

Definition set_subscription (b : bool) (s : OrientationService) : OrientationService :=
  {| callbacks := callbacks s; isFlipped := isFlipped s;
     subscription := b;
     webOrientationHandler := webOrientationHandler s;
     emaZ := emaZ s; alpha := alpha s;
     flipEnterThreshold := flipEnterThreshold s;
     flipExitThreshold := flipExitThreshold s;
     stableRequired := stableRequired s;
     flipStableCount := flipStableCount s;
     unflipStableCount := unflipStableCount s |}.

Definition set_webOrientationHandler (b : bool) (s : OrientationService)
  : OrientationService :=
  {| callbacks := callbacks s; isFlipped := isFlipped s;
     subscription := subscription s;
     webOrientationHandler := b;
     emaZ := emaZ s; alpha := alpha s;
     flipEnterThreshold := flipEnterThreshold s;
     flipExitThreshold := flipExitThreshold s;
     stableRequired := stableRequired s;
     flipStableCount := flipStableCount s;
     unflipStableCount := unflipStableCount s |}.

Definition set_emaZ (e : option float) (s : OrientationService) : OrientationService :=
  {| callbacks := callbacks s; isFlipped := isFlipped s;
     subscription := subscription s;
     webOrientationHandler := webOrientationHandler s;
     emaZ := e; alpha := alpha s;
     flipEnterThreshold := flipEnterThreshold s;
     flipExitThreshold := flipExitThreshold s;
     stableRequired := stableRequired s;
     flipStableCount := flipStableCount s;
     unflipStableCount := unflipStableCount s |}.

Definition set_flipStableCount (n : nat) (s : OrientationService)
  : OrientationService :=
  {| callbacks := callbacks s; isFlipped := isFlipped s;
     subscription := subscription s;
     webOrientationHandler := webOrientationHandler s;
     emaZ := emaZ s; alpha := alpha s;
     flipEnterThreshold := flipEnterThreshold s;
     flipExitThreshold := flipExitThreshold s;
     stableRequired := stableRequired s;
     flipStableCount := n;
     unflipStableCount := unflipStableCount s |}.

Definition set_unflipStableCount (n : nat) (s : OrientationService)
  : OrientationService :=
  {| callbacks := callbacks s; isFlipped := isFlipped s;
     subscription := subscription s;
     webOrientationHandler := webOrientationHandler s;
     emaZ := emaZ s; alpha := alpha s;
     flipEnterThreshold := flipEnterThreshold s;
     flipExitThreshold := flipExitThreshold s;
     stableRequired := stableRequired s;
     flipStableCount := flipStableCount s;
     unflipStableCount := n |}.

(** ** Registration and publication *)

(** [addCallback]: [this.callbacks.push(callback)]. *)
Definition addCallback (callback : OrientationCallback) (s : OrientationService)
  : OrientationService :=
  set_callbacks (callbacks s ++ [callback]) s.

(** [removeCallback]: [this.callbacks.filter(cb => cb !== callback)]. *)
Definition removeCallback (callback : OrientationCallback) (s : OrientationService)
  : OrientationService :=
  set_callbacks (filter (fun cb => negb (Nat.eqb cb callback)) (callbacks s)) s.

(** [notifyCallbacks]:
    [if (this.isFlipped !== isFlipped) { this.isFlipped = isFlipped;
       this.callbacks.forEach(callback => callback(isFlipped)); }] *)
Definition notifyCallbacks (v : bool) (s : OrientationService)
  : OrientationService * list Invocation :=
  if negb (Bool.eqb (isFlipped s) v)
  then (set_isFlipped v s, map (fun callback => (callback, v)) (callbacks s))
  else (s, []).

(** [getCurrentOrientation]. *)
Definition getCurrentOrientation (s : OrientationService) : bool := isFlipped s.

(** ** The sample handlers *)

(** [const enterDeg = 150] and [const exitDeg = 30] of the web handler. *)
Definition enterDeg : float := 150%float.
Definition exitDeg : float := 30%float.

(** The closure stored in [this.webOrientationHandler].  [c >= stableRequired]
    is [stableRequired <=? c]; on [nat], [c - 1] already stops at 0, as
    [Math.max(0, c - 1)] does. *)
Definition onDeviceOrientation (event : DeviceOrientationEvent) (s : OrientationService)
  : OrientationService * list Invocation :=
  match beta event with
  | Some b =>
      let absBeta := PrimFloat.abs b in
      let s1 :=
        if (enterDeg <? absBeta)%float then
          set_unflipStableCount 0 (set_flipStableCount (flipStableCount s + 1) s)
        else if (absBeta <? exitDeg)%float then
          set_flipStableCount 0 (set_unflipStableCount (unflipStableCount s + 1) s)
        else
          let s' := set_flipStableCount (Nat.max 0 (flipStableCount s - 1)) s in
          set_unflipStableCount (Nat.max 0 (unflipStableCount s' - 1)) s' in
      if stableRequired s1 <=? flipStableCount s1 then notifyCallbacks true s1
      else if stableRequired s1 <=? unflipStableCount s1 then notifyCallbacks false s1
      else (s1, [])
  | None => (s, [])
  end.

(** [motion.accelerationIncludingGravity ?? motion.acceleration]. *)
Definition accAny (motion : DeviceMotionMeasurement) : option Acceleration :=
  match accelerationIncludingGravity motion with
  | Some a => Some a
  | None => acceleration motion
  end.

(** [if (this.emaZ === null) this.emaZ = z;
     this.emaZ = this.alpha * z + (1 - this.alpha) * this.emaZ]:
    the new EMA, from the smoothing factor, the old EMA and the reading. *)
Definition emaUpdate (a : float) (prev : option float) (zv : float) : float :=
  let prev' := match prev with None => zv | Some e => e end in
  (a * zv + (1 - a) * prev')%float.

(** The listener passed to [DeviceMotion.addListener]. *)
Definition onDeviceMotion (motion : DeviceMotionMeasurement) (s : OrientationService)
  : OrientationService * list Invocation :=
  match accAny motion with
  | None => (s, [])
  | Some a =>
      match z a with
      | JsNumber zv =>
          let e := emaUpdate (alpha s) (emaZ s) zv in
          let s0 := set_emaZ (Some e) s in
          let s1 :=
            if (e <? flipEnterThreshold s0)%float then
              set_unflipStableCount 0
                (set_flipStableCount (flipStableCount s0 + 1) s0)
            else if (flipExitThreshold s0 <? e)%float then
              set_flipStableCount 0
                (set_unflipStableCount (unflipStableCount s0 + 1) s0)
            else
              let s' := set_flipStableCount (Nat.max 0 (flipStableCount s0 - 1)) s0 in
              set_unflipStableCount (Nat.max 0 (unflipStableCount s' - 1)) s' in
          if stableRequired s1 <=? flipStableCount s1 then notifyCallbacks true s1
          else if stableRequired s1 <=? unflipStableCount s1
               then notifyCallbacks false s1
          else (s1, [])
      | _ => (s, [])
      end
  end.

(** A raw sample of either source, and the handler it goes to. *)
Inductive Sample : Type :=
| WebSample (event : DeviceOrientationEvent)
| MobileSample (motion : DeviceMotionMeasurement).

Definition onSample (x : Sample) (s : OrientationService)
  : OrientationService * list Invocation :=
  match x with
  | WebSample event => onDeviceOrientation event s
  | MobileSample motion => onDeviceMotion motion s
  end.

(** A source delivers a sample only while the service is attached to it. *)
Definition deliver (x : Sample) (p : OrientationService * Sources)
  : (OrientationService * Sources) * list Invocation :=
  let (s, src) := p in
  let attached := match x with
                  | WebSample _ => windowListener src
                  | MobileSample _ => deviceMotionListener src
                  end in
  if attached then let (s1, l) := onSample x s in ((s1, src), l)
  else ((s, src), []).

(** ** Construction and teardown *)

(** The values of the four tuning fields.  The class fixes them with field
    initialisers; they are gathered here so that statements can range over
    them. *)
Record Config : Type := {
  init_alpha : float;
  init_flipEnterThreshold : float;
  init_flipExitThreshold : float;
  init_stableRequired : nat
}.

(** The initialisers written in the source. *)
Definition sourceConfig : Config :=
  {| init_alpha := 0.25%float;
     init_flipEnterThreshold := (-0.6)%float;
     init_flipExitThreshold := (-0.2)%float;
     init_stableRequired := 3 |}.

(** The object once its field initialisers have run. *)
Definition fieldInitialisers (c : Config) : OrientationService :=
  {| callbacks := []; isFlipped := false;
     subscription := false; webOrientationHandler := false;
     emaZ := None; alpha := init_alpha c;
     flipEnterThreshold := init_flipEnterThreshold c;
     flipExitThreshold := init_flipExitThreshold c;
     stableRequired := init_stableRequired c;
     flipStableCount := 0; unflipStableCount := 0 |}.

Definition detached : Sources :=
  {| windowListener := false; deviceMotionListener := false |}.

(** [startWebOrientation].  Where [requestPermission] exists the listener is
    attached later, when the permission promise resolves. *)
Definition startWebOrientation (env : Env) (p : OrientationService * Sources)
  : OrientationService * Sources :=
  let (s, src) := p in
  if hasDeviceOrientationEvent env
  then (set_webOrientationHandler true s,
        {| windowListener := negb (hasRequestPermission env);
           deviceMotionListener := deviceMotionListener src |})
  else (s, src).

(** [startMobileOrientation]: [this.subscription = DeviceMotion.addListener(...)]. *)
Definition startMobileOrientation (p : OrientationService * Sources)
  : OrientationService * Sources :=
  let (s, src) := p in
  (set_subscription true s,
   {| windowListener := windowListener src; deviceMotionListener := true |}).

(** [startListening]. *)
Definition startListening (env : Env) (p : OrientationService * Sources)
  : OrientationService * Sources :=
  if isWeb (OS env) then startWebOrientation env p else startMobileOrientation p.

(** What evaluating [new C(...)] can yield. *)
Inductive Construction (A : Type) : Type :=
| Constructed (a : A)
| ConfigurationError.
Arguments Constructed {A} a.
Arguments ConfigurationError {A}.

(** [new OrientationService()] for a class whose initialisers are [c]:
    the initialisers run, then the constructor body, [this.startListening()].
    There is no [throw] on this path. *)
Definition construct (c : Config) (env : Env)
  : Construction (OrientationService * Sources) :=
  Constructed (startListening env (fieldInitialisers c, detached)).

(** [export const orientationService = new OrientationService()]. *)
Definition orientationService (env : Env)
  : Construction (OrientationService * Sources) :=
  construct sourceConfig env.

(** [destroy]. *)
Definition destroy (os : PlatformOS) (p : OrientationService * Sources)
  : OrientationService * Sources :=
  let (s, src) := p in
  let (s1, src1) :=
    if isWeb os && webOrientationHandler s
    then (set_webOrientationHandler false s,
          {| windowListener := false;
             deviceMotionListener := deviceMotionListener src |})
    else if subscription s
    then (set_subscription false s,
          {| windowListener := windowListener src;
             deviceMotionListener := false |})
    else (s, src) in
  (set_callbacks [] s1, src1).

(** ** Runs of samples *)

Section Runs.
Context {E St : Type} (h : E -> St -> St * list Invocation).

(** Feeding a list of inputs to a handler, in order; the logs concatenate. *)
Fixpoint run (xs : list E) (s : St) : St * list Invocation :=
  match xs with
  | [] => (s, [])
  | x :: rest =>
      let (s1, l1) := h x s in
      let (s2, l2) := run rest s1 in
      (s2, l1 ++ l2)
  end.

(** The log of each input of a run, one entry per input. *)
Fixpoint logs (xs : list E) (s : St) : list (list Invocation) :=
  match xs with
  | [] => []
  | x :: rest => snd (h x s) :: logs rest (fst (h x s))
  end.

(** The state after each input of a run, one entry per input. *)
Fixpoint statesAfter (xs : list E) (s : St) : list St :=
  match xs with
  | [] => []
  | x :: rest => fst (h x s) :: statesAfter rest (fst (h x s))
  end.
End Runs.

(** The service [new] returns. *)
Definition constructed (c : Config) (env : Env) : OrientationService :=
  fst (startListening env (fieldInitialisers c, detached)).

(** [addCallback] for each observer of [cbs], in order. *)
Definition withCallbacks (cbs : list OrientationCallback) (s : OrientationService)
  : OrientationService :=
  fold_left (fun t cb => addCallback cb t) cbs s.

(** The calls [this.callbacks.forEach(callback => callback(v))] makes. *)
Definition broadcast (v : bool) (cbs : list OrientationCallback) : list Invocation :=
  map (fun callback => (callback, v)) cbs.

(** The states the object can be in: as constructed, then after any sequence
    of samples of either source and of calls of its public methods. *)
Inductive reachable : OrientationService -> Prop :=
| reach_construct c env s src :
    construct c env = Constructed (s, src) -> reachable s
| reach_sample x s : reachable s -> reachable (fst (onSample x s))
| reach_addCallback cb s : reachable s -> reachable (addCallback cb s)
| reach_removeCallback cb s : reachable s -> reachable (removeCallback cb s)
| reach_destroy os s src : reachable s -> reachable (fst (destroy os (s, src))).

(** ** Vocabulary of the statements *)

Definition atMostOneNonzero (s : OrientationService) : Prop :=
  flipStableCount s = 0 \/ unflipStableCount s = 0.

(** The value a sample is classified by when it arrives in state [s]:
    [Math.abs(beta)] for the web handler, the updated EMA for the mobile
    listener, nothing for a sample the handler drops. *)
Definition classifiedValue (x : Sample) (s : OrientationService) : option float :=
  match x with
  | WebSample event =>
      match beta event with
      | Some b => Some (PrimFloat.abs b)
      | None => None
      end
  | MobileSample motion =>
      match accAny motion with
      | Some a =>
          match z a with
          | JsNumber zv => Some (emaUpdate (alpha s) (emaZ s) zv)
          | _ => None
          end
      | None => None
      end
  end.

(** The enter-flipped condition of the sample's mode: above 150 degrees,
    or below [flipEnterThreshold]. *)
Definition meetsEnter (x : Sample) (s : OrientationService) : bool :=
  match classifiedValue x s with
  | Some v =>
      match x with
      | WebSample _ => (enterDeg <? v)%float
      | MobileSample _ => (v <? flipEnterThreshold s)%float
      end
  | None => false
  end.

(** The exit-flipped condition of the sample's mode: below 30 degrees, or
    above [flipExitThreshold]. *)
Definition meetsExit (x : Sample) (s : OrientationService) : bool :=
  match classifiedValue x s with
  | Some v =>
      match x with
      | WebSample _ => (v <? exitDeg)%float
      | MobileSample _ => (flipExitThreshold s <? v)%float
      end
  | None => false
  end.

(** The classified value lies strictly between the two thresholds. *)
Definition inDeadZone (x : Sample) (s : OrientationService) : bool :=
  match classifiedValue x s with
  | Some v =>
      match x with
      | WebSample _ => (exitDeg <? v)%float && (v <? enterDeg)%float
      | MobileSample _ =>
          (flipEnterThreshold s <? v)%float && (v <? flipExitThreshold s)%float
      end
  | None => false
  end.

(** The sample has no usable axis value: [beta] is null, or there is no
    acceleration object, or its [z] is not a number. *)
Definition axisAbsent (x : Sample) : bool :=
  match x with
  | WebSample event =>
      match beta event with None => true | Some _ => false end
  | MobileSample motion =>
      match accAny motion with
      | None => true
      | Some a => negb (typeofIsNumber (z a))
      end
  end.

(** Every sample of [xs] satisfies [P] in the state it arrives in. *)
Fixpoint allAlong (P : Sample -> OrientationService -> bool)
  (xs : list Sample) (s : OrientationService) : bool :=
  match xs with
  | [] => true
  | x :: rest => P x s && allAlong P rest (fst (onSample x s))
  end.

(** Every value of the list is below the one before it, starting from [v]. *)
Fixpoint strictlyDecreasingFrom (v : float) (vs : list float) : bool :=
  match vs with
  | [] => true
  | w :: rest => (w <? v)%float && strictlyDecreasingFrom w rest
  end.

(** The fields that neither a handler nor a publication writes. *)
Definition sameTuning (s s' : OrientationService) : Prop :=
  alpha s' = alpha s /\
  flipEnterThreshold s' = flipEnterThreshold s /\
  flipExitThreshold s' = flipExitThreshold s /\
  stableRequired s' = stableRequired s /\
  callbacks s' = callbacks s /\
  subscription s' = subscription s /\
  webOrientationHandler s' = webOrientationHandler s.


(** *** The common shape of the two handlers *)

(** Both handlers update the counters in the same way, given whether the
    classified value met the enter condition and whether it met the exit
    condition. *)
Definition updateCounters (enter exit : bool) (s : OrientationService)
  : OrientationService :=
  if enter then
    set_unflipStableCount 0 (set_flipStableCount (flipStableCount s + 1) s)
  else if exit then
    set_flipStableCount 0 (set_unflipStableCount (unflipStableCount s + 1) s)
  else
    set_unflipStableCount (Nat.max 0 (unflipStableCount s - 1))
      (set_flipStableCount (Nat.max 0 (flipStableCount s - 1)) s).

(** Both handlers end with the same publication. *)
Definition publishIfStable (s : OrientationService)
  : OrientationService * list Invocation :=
  if stableRequired s <=? flipStableCount s then notifyCallbacks true s
  else if stableRequired s <=? unflipStableCount s then notifyCallbacks false s
  else (s, []).

Definition classifyStep (enter exit : bool) (s : OrientationService)
  : OrientationService * list Invocation :=
  publishIfStable (updateCounters enter exit s).

(** The value [publishIfStable] leaves in [isFlipped]. *)
Definition publishedAfter (s : OrientationService) : bool :=
  if stableRequired s <=? flipStableCount s then true
  else if stableRequired s <=? unflipStableCount s then false
  else isFlipped s.

(** *** Sample values *)

(** A tilt sample and an acceleration sample with the given reading. *)
Definition tilt (b : float) : Sample := WebSample {| beta := Some b |}.

Definition accelZ (zv : float) : Sample :=
  MobileSample {| accelerationIncludingGravity := Some {| z := JsNumber zv |};
                  acceleration := None |}.

(** A payload whose gravity-including acceleration object lacks [z]; the
    fallback to [acceleration] is not taken, as that object is not null. *)
Definition badZ : Sample :=
  MobileSample
    {| accelerationIncludingGravity := Some {| z := JsUndefined |};
       acceleration := Some {| z := JsNumber (-9.81)%float |} |}.

Definition webEnv : Env :=
  {| OS := web; hasDeviceOrientationEvent := true; hasRequestPermission := false |}.

Definition mobileEnv : Env :=
  {| OS := android; hasDeviceOrientationEvent := false;
     hasRequestPermission := false |}.

(** The published value is [false] and two observers are registered. *)
Definition twoObservers : OrientationService :=
  withCallbacks [7; 4] (constructed sourceConfig mobileEnv).

(** The EMA is 0 before the first sample of scenario B. *)
Definition scenarioB_start (cbs : list OrientationCallback) : OrientationService :=
  set_emaZ (Some 0%float) (withCallbacks cbs (constructed sourceConfig mobileEnv)).

(** * Proofs *)

(** ** Binary64 comparison *)

Lemma SFcompare_Lt_swap (x y : spec_float) :
  SFcompare x y = Some Lt -> SFcompare y x = Some Gt.
Proof.
  destruct x as [sx|sx| |sx mx ex], y as [sy|sy| |sy my ey]; simpl;
    try discriminate;
    try (destruct sx; try destruct sy; simpl; intros H;
         discriminate || reflexivity).
  destruct sx, sy; simpl; intros H; try discriminate; try reflexivity;
    rewrite (Z.compare_antisym ex ey);
    destruct (ex ?= ey)%Z; simpl in *; try discriminate; try reflexivity;
    change (PosDef.Pos.compare_cont Eq my mx) with (my ?= mx)%positive;
    change (PosDef.Pos.compare_cont Eq mx my) with (mx ?= my)%positive in H;
    rewrite (Pos.compare_antisym mx my);
    destruct (mx ?= my)%positive; simpl in *; discriminate || reflexivity.
Qed.

(** [<] on binary64 values is asymmetric. *)
Lemma ltb_asym (x y : float) : (x <? y)%float = true -> (y <? x)%float = false.
Proof.
  rewrite !ltb_spec. unfold SFltb. intros H.
  destruct (SFcompare (Prim2SF x) (Prim2SF y)) as [[ | | ]|] eqn:E; try discriminate.
  rewrite (SFcompare_Lt_swap _ _ E). reflexivity.
Qed.

(** ** Runs *)

Lemma run_cons {E St : Type} (h : E -> St -> St * list Invocation) x xs s :
  run h (x :: xs) s =
  (fst (run h xs (fst (h x s))), snd (h x s) ++ snd (run h xs (fst (h x s)))).
Proof.
  simpl. destruct (h x s) as [s1 l1]. simpl.
  destruct (run h xs s1) as [s2 l2]. reflexivity.
Qed.

Lemma run_one {E St : Type} (h : E -> St -> St * list Invocation) x s :
  run h [x] s = h x s.
Proof. simpl. destruct (h x s). now rewrite app_nil_r. Qed.

Lemma allAlong_app P xs ys s :
  allAlong P (xs ++ ys) s =
  allAlong P xs s && allAlong P ys (fst (run onSample xs s)).
Proof.
  revert s. induction xs as [|x xs IH]; intros s.
  - reflexivity.
  - rewrite <- app_comm_cons, run_cons. simpl. rewrite IH.
    now rewrite andb_assoc.
Qed.

Lemma withCallbacks_eq cbs s :
  withCallbacks cbs s = set_callbacks (callbacks s ++ cbs) s.
Proof.
  unfold withCallbacks. revert s.
  induction cbs as [|cb cbs IH]; intros s; simpl.
  - rewrite app_nil_r. destruct s; reflexivity.
  - rewrite IH. unfold addCallback, set_callbacks. simpl.
    now rewrite <- app_assoc.
Qed.

(** ** The handlers, through their common shape *)

(** Each handler drops the sample or performs [classifyStep]; the mobile
    listener stores the new EMA first. *)
Lemma onSample_classify x s :
  onSample x s =
  match classifiedValue x s with
  | None => (s, [])
  | Some v =>
      classifyStep (meetsEnter x s) (meetsExit x s)
        match x with
        | WebSample _ => s
        | MobileSample _ => set_emaZ (Some v) s
        end
  end.
Proof.
  unfold meetsEnter, meetsExit, classifyStep, publishIfStable, updateCounters.
  destruct x as [event|motion]; simpl.
  - unfold onDeviceOrientation. destruct (beta event); reflexivity.
  - unfold onDeviceMotion. destruct (accAny motion) as [a|]; [|reflexivity].
    destruct (z a); reflexivity.
Qed.

Lemma sameTuning_refl s : sameTuning s s.
Proof. repeat split. Qed.

Lemma sameTuning_trans s1 s2 s3 :
  sameTuning s1 s2 -> sameTuning s2 s3 -> sameTuning s1 s3.
Proof.
  unfold sameTuning. intros (A1 & A2 & A3 & A4 & A5 & A6 & A7)
    (B1 & B2 & B3 & B4 & B5 & B6 & B7).
  repeat split; congruence.
Qed.

Lemma notifyCallbacks_fst v s : fst (notifyCallbacks v s) = set_isFlipped v s.
Proof.
  unfold notifyCallbacks.
  destruct (Bool.eqb (isFlipped s) v) eqn:E; simpl; [|reflexivity].
  apply Bool.eqb_prop in E. subst v. destruct s; reflexivity.
Qed.

Lemma notifyCallbacks_snd v s :
  snd (notifyCallbacks v s) =
  if Bool.eqb (isFlipped s) v then [] else broadcast v (callbacks s).
Proof.
  unfold notifyCallbacks. destruct (Bool.eqb (isFlipped s) v); reflexivity.
Qed.

Lemma publishIfStable_fst s :
  fst (publishIfStable s) = set_isFlipped (publishedAfter s) s.
Proof.
  unfold publishIfStable, publishedAfter.
  destruct (stableRequired s <=? flipStableCount s);
    [apply notifyCallbacks_fst|].
  destruct (stableRequired s <=? unflipStableCount s);
    [apply notifyCallbacks_fst|].
  destruct s; reflexivity.
Qed.

Lemma publishIfStable_snd s :
  snd (publishIfStable s) =
  if Bool.eqb (isFlipped s) (publishedAfter s) then []
  else broadcast (publishedAfter s) (callbacks s).
Proof.
  unfold publishIfStable, publishedAfter.
  destruct (stableRequired s <=? flipStableCount s);
    [apply notifyCallbacks_snd|].
  destruct (stableRequired s <=? unflipStableCount s);
    [apply notifyCallbacks_snd|].
  simpl. now rewrite Bool.eqb_reflx.
Qed.

Lemma updateCounters_sameTuning en ex s : sameTuning s (updateCounters en ex s).
Proof. unfold updateCounters. destruct en, ex; repeat split. Qed.

Lemma classifyStep_fst en ex s :
  fst (classifyStep en ex s) =
  set_isFlipped (publishedAfter (updateCounters en ex s)) (updateCounters en ex s).
Proof. apply publishIfStable_fst. Qed.

Lemma classifyStep_sameTuning en ex s : sameTuning s (fst (classifyStep en ex s)).
Proof.
  rewrite classifyStep_fst.
  apply sameTuning_trans with (updateCounters en ex s);
    [apply updateCounters_sameTuning | repeat split].
Qed.

Lemma classifyStep_counts en ex s :
  flipStableCount (fst (classifyStep en ex s)) =
    flipStableCount (updateCounters en ex s) /\
  unflipStableCount (fst (classifyStep en ex s)) =
    unflipStableCount (updateCounters en ex s).
Proof. rewrite classifyStep_fst. split; reflexivity. Qed.


(** Splits on whether the handler drops the sample, and on its source. *)
Ltac by_classification x s :=
  rewrite (onSample_classify x s);
  destruct (classifiedValue x s) as [?v|]; [destruct x as [?event|?motion]|].

Lemma onSample_sameTuning x s : sameTuning s (fst (onSample x s)).
Proof.
  by_classification x s.
  - apply classifyStep_sameTuning.
  - eapply sameTuning_trans; [|apply classifyStep_sameTuning]. repeat split.
  - apply sameTuning_refl.
Qed.


Lemma run_sameTuning xs s : sameTuning s (fst (run onSample xs s)).
Proof.
  revert s. induction xs as [|x xs IH]; intros s.
  - apply sameTuning_refl.
  - rewrite run_cons. simpl.
    eapply sameTuning_trans; [apply onSample_sameTuning | apply IH].
Qed.

Lemma constructed_fresh c env :
  callbacks (constructed c env) = [] /\
  isFlipped (constructed c env) = false /\
  emaZ (constructed c env) = None /\
  flipStableCount (constructed c env) = 0 /\
  unflipStableCount (constructed c env) = 0 /\
  stableRequired (constructed c env) = init_stableRequired c /\
  alpha (constructed c env) = init_alpha c /\
  flipEnterThreshold (constructed c env) = init_flipEnterThreshold c /\
  flipExitThreshold (constructed c env) = init_flipExitThreshold c.
Proof.
  unfold constructed, startListening, startWebOrientation, startMobileOrientation.
  destruct (isWeb (OS env)); [destruct (hasDeviceOrientationEvent env)|];
    repeat split.
Qed.

Lemma destroy_fst os s src :
  exists sub h,
    fst (destroy os (s, src)) =
    set_callbacks [] (set_subscription sub (set_webOrientationHandler h s)).
Proof.
  unfold destroy.
  destruct (isWeb os && webOrientationHandler s) eqn:W.
  - exists (subscription s), false. reflexivity.
  - destruct (subscription s) eqn:S.
    + exists false, (webOrientationHandler s). reflexivity.
    + exists false, (webOrientationHandler s). simpl. rewrite <- S.
      destruct s; reflexivity.
Qed.


(** ** The counters, step by step *)

Lemma updateCounters_atMostOne en ex s :
  atMostOneNonzero s -> atMostOneNonzero (updateCounters en ex s).
Proof.
  unfold atMostOneNonzero, updateCounters.
  destruct en; [now right|]. destruct ex; [now left|].
  simpl. intros [H|H]; rewrite H; [left|right]; reflexivity.
Qed.

Lemma updateCounters_increments en ex s :
  (flipStableCount s < flipStableCount (updateCounters en ex s) ->
   unflipStableCount (updateCounters en ex s) = 0) /\
  (unflipStableCount s < unflipStableCount (updateCounters en ex s) ->
   flipStableCount (updateCounters en ex s) = 0).
Proof.
  unfold updateCounters. destruct en; [|destruct ex]; simpl; split; lia.
Qed.

Lemma onSample_atMostOne x s :
  atMostOneNonzero s -> atMostOneNonzero (fst (onSample x s)).
Proof.
  intros H. unfold atMostOneNonzero. by_classification x s; [| |exact H].
  - destruct (classifyStep_counts (meetsEnter (WebSample event) s)
                (meetsExit (WebSample event) s) s) as [-> ->].
    now apply updateCounters_atMostOne.
  - destruct (classifyStep_counts (meetsEnter (MobileSample motion) s)
                (meetsExit (MobileSample motion) s) (set_emaZ (Some v) s))
      as [-> ->].
    now apply (updateCounters_atMostOne _ _ (set_emaZ (Some v) s)).
Qed.

Lemma onSample_increments x s :
  (flipStableCount s < flipStableCount (fst (onSample x s)) ->
   unflipStableCount (fst (onSample x s)) = 0) /\
  (unflipStableCount s < unflipStableCount (fst (onSample x s)) ->
   flipStableCount (fst (onSample x s)) = 0).
Proof.
  by_classification x s; [| |simpl; lia].
  - destruct (classifyStep_counts (meetsEnter (WebSample event) s)
                (meetsExit (WebSample event) s) s) as [-> ->].
    apply updateCounters_increments.
  - destruct (classifyStep_counts (meetsEnter (MobileSample motion) s)
                (meetsExit (MobileSample motion) s) (set_emaZ (Some v) s))
      as [-> ->].
    apply (updateCounters_increments _ _ (set_emaZ (Some v) s)).
Qed.

(** [classifyStep] on a value that meets the enter condition. *)
Lemma classifyStep_enter ex t :
  flipStableCount (fst (classifyStep true ex t)) = flipStableCount t + 1 /\
  unflipStableCount (fst (classifyStep true ex t)) = 0 /\
  isFlipped (fst (classifyStep true ex t)) =
    (isFlipped t || (stableRequired t <=? flipStableCount t + 1)) /\
  snd (classifyStep true ex t) =
    if negb (isFlipped t) && (stableRequired t <=? flipStableCount t + 1)
    then broadcast true (callbacks t) else [].
Proof.
  unfold classifyStep. rewrite publishIfStable_fst, publishIfStable_snd.
  unfold publishedAfter, updateCounters, broadcast. simpl.
  destruct (stableRequired t <=? flipStableCount t + 1) eqn:L.
  - destruct (isFlipped t); repeat split; reflexivity.
  - destruct (stableRequired t <=? 0) eqn:L0.
    + apply Nat.leb_le in L0. apply Nat.leb_gt in L. lia.
    + rewrite Bool.eqb_reflx. destruct (isFlipped t); repeat split; reflexivity.
Qed.

(** What one sample meeting the enter condition does. *)
Lemma onSample_enter x s :
  meetsEnter x s = true ->
  flipStableCount (fst (onSample x s)) = flipStableCount s + 1 /\
  unflipStableCount (fst (onSample x s)) = 0 /\
  isFlipped (fst (onSample x s)) =
    (isFlipped s || (stableRequired s <=? flipStableCount s + 1)) /\
  snd (onSample x s) =
    if negb (isFlipped s) && (stableRequired s <=? flipStableCount s + 1)
    then broadcast true (callbacks s) else [].
Proof.
  intros H. rewrite onSample_classify, H.
  unfold meetsEnter in H. destruct (classifiedValue x s) as [v|]; [|discriminate].
  destruct x.
  - apply classifyStep_enter.
  - apply (classifyStep_enter (meetsExit (MobileSample motion) s)
             (set_emaZ (Some v) s)).
Qed.

(** A streak of samples that all meet the enter condition: the flip counter
    climbs by one per sample, and the observers are called once, when it
    first reaches [stableRequired], unless [true] was published already. *)
Lemma enter_streak xs s :
  allAlong meetsEnter xs s = true ->
  flipStableCount (fst (run onSample xs s)) = flipStableCount s + length xs /\
  isFlipped (fst (run onSample xs s)) =
    (isFlipped s ||
     ((1 <=? length xs) && (stableRequired s <=? flipStableCount s + length xs))) /\
  snd (run onSample xs s) =
    if negb (isFlipped s) && (1 <=? length xs)
       && (stableRequired s <=? flipStableCount s + length xs)
    then broadcast true (callbacks s) else [].
Proof.
  revert s. induction xs as [|x xs IH]; intros s H.
  - simpl. rewrite Nat.add_0_r, orb_false_r, andb_false_r. auto.
  - simpl in H. apply andb_true_iff in H. destruct H as [Hx Hxs].
    destruct (onSample_enter x s Hx) as (F1 & _ & B1 & L1).
    destruct (onSample_sameTuning x s) as (_ & _ & _ & S1 & C1 & _).
    specialize (IH _ Hxs). destruct IH as (F2 & B2 & L2).
    rewrite run_cons. cbn [fst snd length].
    rewrite F2, B2, L2, L1, B1, F1, S1, C1.
    replace (flipStableCount s + 1 + length xs)
      with (flipStableCount s + S (length xs)) by lia.
    change (1 <=? S (length xs)) with true.
    rewrite andb_true_r. cbn [andb].
    destruct (stableRequired s <=? flipStableCount s + 1) eqn:A;
      destruct (stableRequired s <=? flipStableCount s + S (length xs)) eqn:B;
      destruct (1 <=? length xs) eqn:D;
      try (apply Nat.leb_le in A); try (apply Nat.leb_gt in A);
      try (apply Nat.leb_le in B); try (apply Nat.leb_gt in B);
      try (apply Nat.leb_le in D); try (apply Nat.leb_gt in D);
      try lia;
      destruct (isFlipped s); cbn; rewrite ?app_nil_r; auto.
Qed.

(** Identical tilt samples beyond 150 degrees all meet the enter condition. *)
Lemma tilt_streak_meetsEnter b k s :
  (enterDeg <? PrimFloat.abs b)%float = true ->
  allAlong meetsEnter (repeat (tilt b) k) s = true.
Proof.
  intros H. revert s. induction k as [|k IH]; intros s; [reflexivity|].
  simpl. unfold meetsEnter at 1. simpl. rewrite H. apply IH.
Qed.

(** Identical acceleration samples [zv] below the enter threshold all meet
    the enter condition, provided the EMA of a constant stream is that
    constant: [alpha * zv + (1 - alpha) * zv] rounds to [zv]. *)
Lemma accel_streak_meetsEnter zv k s :
  emaZ s = None \/ emaZ s = Some zv ->
  (alpha s * zv + (1 - alpha s) * zv)%float = zv ->
  (zv <? flipEnterThreshold s)%float = true ->
  allAlong meetsEnter (repeat (accelZ zv) k) s = true.
Proof.
  revert s. induction k as [|k IH]; intros s He Hfix Hlt; [reflexivity|].
  assert (U : emaUpdate (alpha s) (emaZ s) zv = zv).
  { unfold emaUpdate. destruct He as [-> | ->]; exact Hfix. }
  cbn [repeat allAlong]. apply andb_true_iff. split.
  - unfold meetsEnter. simpl. now rewrite U.
  - destruct (onSample_sameTuning (accelZ zv) s) as (A1 & A2 & _).
    apply IH; [right| now rewrite A1 | now rewrite A2].
    rewrite onSample_classify. simpl. rewrite classifyStep_fst, U.
    unfold updateCounters.
    destruct (meetsEnter (accelZ zv) s), (meetsExit (accelZ zv) s); reflexivity.
Qed.

(** ** The dead zone *)

Lemma deadZone_neither x s :
  inDeadZone x s = true -> meetsEnter x s = false /\ meetsExit x s = false.
Proof.
  unfold inDeadZone, meetsEnter, meetsExit.
  destruct (classifiedValue x s) as [v|]; [|discriminate].
  destruct x; intros H; apply andb_true_iff in H; destruct H as [H1 H2];
    split; apply ltb_asym; assumption.
Qed.

(** What one dead-zone sample does to the counters. *)
Lemma onSample_deadZone x s :
  inDeadZone x s = true ->
  flipStableCount (fst (onSample x s)) = flipStableCount s - 1 /\
  unflipStableCount (fst (onSample x s)) = unflipStableCount s - 1.
Proof.
  intros H. destruct (deadZone_neither x s H) as [E1 E2].
  rewrite onSample_classify, E1, E2.
  unfold inDeadZone in H. destruct (classifiedValue x s) as [v|]; [|discriminate].
  rewrite classifyStep_fst. destruct x; split; reflexivity.
Qed.

(** With both counters at 0 a dead-zone sample calls nobody and leaves the
    counters and the published value as they were. *)
Lemma onSample_deadZone_idle x s :
  1 <= stableRequired s ->
  flipStableCount s = 0 -> unflipStableCount s = 0 ->
  inDeadZone x s = true ->
  snd (onSample x s) = [] /\
  isFlipped (fst (onSample x s)) = isFlipped s /\
  flipStableCount (fst (onSample x s)) = 0 /\
  unflipStableCount (fst (onSample x s)) = 0.
Proof.
  intros Hsr Hf Hu H.
  destruct (onSample_deadZone x s H) as [F U]. rewrite Hf in F. rewrite Hu in U.
  destruct (deadZone_neither x s H) as [E1 E2].
  assert (L : (stableRequired s <=? 0) = false) by (apply Nat.leb_gt; lia).
  split; [|split; [|split; assumption]].
  - rewrite onSample_classify, E1, E2.
    destruct (classifiedValue x s) as [v|]; [|reflexivity].
    unfold classifyStep. rewrite publishIfStable_snd.
    unfold publishedAfter, updateCounters.
    destruct x; simpl; rewrite Hf, Hu; simpl; rewrite L;
      now rewrite Bool.eqb_reflx.
  - rewrite onSample_classify, E1, E2.
    destruct (classifiedValue x s) as [v|]; [|reflexivity].
    rewrite classifyStep_fst. unfold publishedAfter, updateCounters.
    destruct x; simpl; rewrite Hf, Hu; simpl; now rewrite L.
Qed.

(** The per-sample logs and the counters along a run of dead-zone samples
    that starts with both counters at 0. *)
Lemma deadZone_run xs s :
  1 <= stableRequired s ->
  flipStableCount s = 0 -> unflipStableCount s = 0 ->
  allAlong inDeadZone xs s = true ->
  snd (run onSample xs s) = [] /\
  Forall (fun l => l = []) (logs onSample xs s) /\
  isFlipped (fst (run onSample xs s)) = isFlipped s /\
  flipStableCount (fst (run onSample xs s)) = 0 /\
  unflipStableCount (fst (run onSample xs s)) = 0.
Proof.
  revert s. induction xs as [|x xs IH]; intros s Hsr Hf Hu H.
  - simpl. auto.
  - simpl in H. apply andb_true_iff in H. destruct H as [Hx Hxs].
    destruct (onSample_deadZone_idle x s Hsr Hf Hu Hx) as (L1 & B1 & F1 & U1).
    destruct (onSample_sameTuning x s) as (_ & _ & _ & S1 & _).
    rewrite run_cons. cbn [fst snd logs].
    destruct (IH (fst (onSample x s))) as (L2 & A2 & B2 & F2 & U2);
      try assumption; [lia|].
    rewrite L1, L2, B2, B1. auto.
Qed.

(** ** Without observers *)



(** * Properties of the specification *)

(** ** The publish contract *)

(** C1.  Publishing [v] through [notifyCallbacks] does nothing when [v] is the
    value already published: the state is the same and no observer is called.
    Otherwise the published value becomes [v] and the observers are called
    with [v], one call per registration, in registration order. *)
Theorem notifyCallbacks_contract (s : OrientationService) (v : bool) :
  (isFlipped s = v -> notifyCallbacks v s = (s, [])) /\
  (isFlipped s <> v ->
   fst (notifyCallbacks v s) = set_isFlipped v s /\
   getCurrentOrientation (fst (notifyCallbacks v s)) = v /\
   snd (notifyCallbacks v s) = broadcast v (callbacks s) /\
   map fst (snd (notifyCallbacks v s)) = callbacks s /\
   Forall (fun i => snd i = v) (snd (notifyCallbacks v s)) /\
   forall cb, count_occ Nat.eq_dec (map fst (snd (notifyCallbacks v s))) cb =
              count_occ Nat.eq_dec (callbacks s) cb).
Proof.
  unfold notifyCallbacks, broadcast. split; intros H.
  - subst v. now rewrite Bool.eqb_reflx.
  - destruct (Bool.eqb (isFlipped s) v) eqn:E.
    + apply Bool.eqb_prop in E. contradiction.
    + simpl. assert (M : map fst (map (fun callback : OrientationCallback =>
                                         (callback, v)) (callbacks s)) = callbacks s).
      { rewrite map_map. simpl. apply map_id. }
      repeat split; trivial.
      * apply Forall_forall. intros i Hi. apply in_map_iff in Hi.
        destruct Hi as (cb & <- & _). reflexivity.
      * intros cb. now rewrite M.
Qed.

Lemma notifyCallbacks_contract_witness :
  notifyCallbacks false twoObservers = (twoObservers, []) /\
  snd (notifyCallbacks true twoObservers) = [(7, true); (4, true)] /\
  getCurrentOrientation (fst (notifyCallbacks true twoObservers)) = true.
Proof.
  destruct (notifyCallbacks_contract twoObservers false) as [A _].
  destruct (notifyCallbacks_contract twoObservers true) as [_ B].
  split; [apply A; reflexivity|].
  destruct B as (_ & B2 & B3 & _); [discriminate|].
  split; [exact B3 | exact B2].
Defined.

(** ** The counters *)

(** C2.  In every reachable state at most one of the two stability counters
    is nonzero, and a sample that raises one counter leaves the other at 0. *)
Theorem counters_exclusive :
  (forall s, reachable s -> atMostOneNonzero s) /\
  (forall x s,
     (flipStableCount s < flipStableCount (fst (onSample x s)) ->
      unflipStableCount (fst (onSample x s)) = 0) /\
     (unflipStableCount s < unflipStableCount (fst (onSample x s)) ->
      flipStableCount (fst (onSample x s)) = 0)).
Proof.
  split; [|exact onSample_increments].
  induction 1 as [c env s src Hc|x s _ IH|cb s _ IH|cb s _ IH|os s src _ IH].
  - injection Hc as Hc.
    destruct (constructed_fresh c env) as (_ & _ & _ & F & _).
    unfold constructed in F. rewrite Hc in F. now left.
  - now apply onSample_atMostOne.
  - exact IH.
  - exact IH.
  - destruct (destroy_fst os s src) as (sub & h & ->). exact IH.
Qed.

Lemma counters_exclusive_witness :
  atMostOneNonzero
    (fst (onSample (tilt 10%float)
       (fst (onSample (tilt 90%float)
          (fst (onSample (tilt 170%float)
             (constructed sourceConfig webEnv))))))) /\
  unflipStableCount
    (fst (onSample (tilt 170%float) (constructed sourceConfig webEnv))) = 0.
Proof.
  destruct counters_exclusive as [A B]. split.
  - apply A.
    apply (reach_sample (tilt 10%float)), (reach_sample (tilt 90%float)),
      (reach_sample (tilt 170%float)).
    apply (reach_construct sourceConfig webEnv _
             (snd (startListening webEnv (fieldInitialisers sourceConfig, detached)))).
    reflexivity.
  - apply (B (tilt 170%float) (constructed sourceConfig webEnv)).
    simpl. lia.
Defined.

(** ** Debounce *)

(** C3.  From a freshly constructed detector with observers [cbs], let the
    same sample arrive [stableRequired + n] times, each time meeting the
    enter-flipped condition.  Fewer than [stableRequired] of them call
    nobody; exactly [stableRequired] of them call every observer once, with
    [true]; the [n] further ones call nobody. *)
Theorem stable_samples_publish_once
  (c : Config) (env : Env) (cbs : list OrientationCallback) (x : Sample) (n : nat) :
  1 <= init_stableRequired c ->
  allAlong meetsEnter (repeat x (init_stableRequired c + n))
    (withCallbacks cbs (constructed c env)) = true ->
  (forall k, k < init_stableRequired c ->
     snd (run onSample (repeat x k) (withCallbacks cbs (constructed c env))) = []) /\
  snd (run onSample (repeat x (init_stableRequired c))
         (withCallbacks cbs (constructed c env))) = broadcast true cbs /\
  getCurrentOrientation
    (fst (run onSample (repeat x (init_stableRequired c))
            (withCallbacks cbs (constructed c env)))) = true /\
  snd (run onSample (repeat x n)
         (fst (run onSample (repeat x (init_stableRequired c))
                 (withCallbacks cbs (constructed c env))))) = [] /\
  snd (run onSample (repeat x (init_stableRequired c + n))
         (withCallbacks cbs (constructed c env))) = broadcast true cbs.
Proof.
  intros Hpos Hall.
  destruct (constructed_fresh c env) as (K1 & K2 & _ & K4 & _ & K6 & _).
  set (s0 := withCallbacks cbs (constructed c env)) in *.
  assert (Hs0 : callbacks s0 = cbs /\ isFlipped s0 = false /\
                flipStableCount s0 = 0 /\
                stableRequired s0 = init_stableRequired c).
  { unfold s0. rewrite withCallbacks_eq. simpl. rewrite K1. auto. }
  destruct Hs0 as (H1 & H2 & H3 & H4).
  set (sr := init_stableRequired c) in *.
  assert (Hpre : forall k, k <= sr + n ->
            allAlong meetsEnter (repeat x k) s0 = true).
  { intros k Hk. replace (sr + n) with (k + (sr + n - k)) in Hall by lia.
    rewrite repeat_app, allAlong_app in Hall.
    now apply andb_true_iff in Hall. }
  assert (Hlog : forall k, k <= sr + n ->
            snd (run onSample (repeat x k) s0) =
            if (1 <=? k) && (sr <=? k) then broadcast true cbs else []).
  { intros k Hk. destruct (enter_streak _ _ (Hpre k Hk)) as (_ & _ & L).
    rewrite L, H1, H2, H3, H4, repeat_length. reflexivity. }
  assert (Hsr : (1 <=? sr) && (sr <=? sr) = true).
  { apply andb_true_iff. split; apply Nat.leb_le; lia. }
  assert (Hflip : isFlipped (fst (run onSample (repeat x sr) s0)) = true).
  { destruct (enter_streak _ _ (Hpre sr ltac:(lia))) as (_ & B & _).
    rewrite B, H2, H3, H4, repeat_length. exact Hsr. }
  split; [|split; [|split; [|split]]].
  - intros k Hk. rewrite Hlog by lia.
    replace (sr <=? k) with false by (symmetry; apply Nat.leb_gt; lia).
    now rewrite andb_false_r.
  - rewrite Hlog by lia. now rewrite Hsr.
  - exact Hflip.
  - rewrite repeat_app, allAlong_app in Hall.
    apply andb_true_iff in Hall. destruct Hall as [_ Hall].
    destruct (enter_streak _ _ Hall) as (_ & _ & L).
    rewrite L, Hflip. reflexivity.
  - rewrite Hlog by lia.
    replace ((1 <=? sr + n) && (sr <=? sr + n)) with true; [reflexivity|].
    symmetry. apply andb_true_iff. split; apply Nat.leb_le; lia.
Qed.

Lemma stable_samples_publish_once_witness :
  snd (run onSample (repeat (accelZ (-9.81)%float) 3)
         (withCallbacks [7; 4] (constructed sourceConfig mobileEnv))) =
    [(7, true); (4, true)] /\
  snd (run onSample (repeat (accelZ (-9.81)%float) (3 + 5))
         (withCallbacks [7; 4] (constructed sourceConfig mobileEnv))) =
    [(7, true); (4, true)] /\
  snd (run onSample (repeat (tilt 179%float) (3 + 2))
         (withCallbacks [7; 4] (constructed sourceConfig webEnv))) =
    [(7, true); (4, true)].
Proof.
  destruct (stable_samples_publish_once sourceConfig mobileEnv [7; 4]
              (accelZ (-9.81)%float) 5) as (_ & A & _ & _ & B);
    [simpl; lia | reflexivity |].
  destruct (stable_samples_publish_once sourceConfig webEnv [7; 4]
              (tilt 179%float) 2) as (_ & _ & _ & _ & C);
    [simpl; lia | reflexivity |].
  split; [exact A | split; [exact B | exact C]].
Defined.

(** ** Hysteresis *)

(** C4.  From a freshly constructed detector, samples whose classified
    values all lie strictly between the two thresholds never call an
    observer and never change the published value, however many arrive:
    both counters stay at 0.  In any state a dead-zone sample lowers each
    counter by one, stopping at 0. *)
Theorem dead_zone_never_publishes
  (c : Config) (env : Env) (cbs : list OrientationCallback) (xs : list Sample) :
  1 <= init_stableRequired c ->
  allAlong inDeadZone xs (withCallbacks cbs (constructed c env)) = true ->
  snd (run onSample xs (withCallbacks cbs (constructed c env))) = [] /\
  Forall (fun l => l = []) (logs onSample xs (withCallbacks cbs (constructed c env))) /\
  getCurrentOrientation
    (fst (run onSample xs (withCallbacks cbs (constructed c env)))) = false /\
  flipStableCount
    (fst (run onSample xs (withCallbacks cbs (constructed c env)))) = 0 /\
  unflipStableCount
    (fst (run onSample xs (withCallbacks cbs (constructed c env)))) = 0 /\
  (forall x s, inDeadZone x s = true ->
     flipStableCount (fst (onSample x s)) = Nat.max 0 (flipStableCount s - 1) /\
     unflipStableCount (fst (onSample x s)) = Nat.max 0 (unflipStableCount s - 1)).
Proof.
  intros Hpos Hall.
  destruct (constructed_fresh c env) as (K1 & K2 & _ & K4 & K5 & K6 & _).
  set (s0 := withCallbacks cbs (constructed c env)) in *.
  assert (Hs0 : isFlipped s0 = false /\ flipStableCount s0 = 0 /\
                unflipStableCount s0 = 0 /\
                stableRequired s0 = init_stableRequired c).
  { unfold s0. rewrite withCallbacks_eq. simpl. auto. }
  destruct Hs0 as (H2 & H3 & H4 & H5).
  destruct (deadZone_run xs s0) as (L & A & B & F & U);
    try assumption; [lia|].
  repeat (split; [first [assumption | unfold getCurrentOrientation; congruence]|]).
  intros x s H. simpl. now apply onSample_deadZone.
Qed.

Lemma dead_zone_never_publishes_witness :
  snd (run onSample (map tilt [90; -45; 149; 31; 100]%float)
         (withCallbacks [7; 4] (constructed sourceConfig webEnv))) = [] /\
  snd (run onSample (map accelZ [-0.4; -0.5; -0.3]%float)
         (withCallbacks [7; 4] (constructed sourceConfig mobileEnv))) = [].
Proof.
  split.
  - apply (dead_zone_never_publishes sourceConfig webEnv [7; 4]
             (map tilt [90; -45; 149; 31; 100]%float));
      [simpl; lia | reflexivity].
  - apply (dead_zone_never_publishes sourceConfig mobileEnv [7; 4]
             (map accelZ [-0.4; -0.5; -0.3]%float));
      [simpl; lia | reflexivity].
Defined.

(** ** Scenarios *)

(** C5.  Tilt mode, [stableRequired = 3], thresholds 150 and 30, from a
    freshly constructed detector: of the samples 170, 172, 175, 10, 12, 5
    the third publishes [true], the sixth publishes [false], and the others
    publish nothing. *)
Theorem scenario_A (cbs : list OrientationCallback) :
  logs onSample (map tilt [170; 172; 175; 10; 12; 5]%float)
    (withCallbacks cbs (constructed sourceConfig webEnv)) =
  [ []; []; broadcast true cbs; []; []; broadcast false cbs ] /\
  map getCurrentOrientation
    (statesAfter onSample (map tilt [170; 172; 175; 10; 12; 5]%float)
       (withCallbacks cbs (constructed sourceConfig webEnv))) =
  [ false; false; true; true; true; false ] /\
  stableRequired (constructed sourceConfig webEnv) = 3 /\
  enterDeg = 150%float /\ exitDeg = 30%float.
Proof.
  rewrite withCallbacks_eq. repeat split.
Qed.

(** C6, as the code has it.  Acceleration mode with [alpha = 0.25], thresholds
    -0.6 and -0.2 and the EMA at 0: the raw samples -5, -5, -5 take the EMA to
    -1.25, -2.1875 and -2.890625, strictly downward; each of these is below the
    enter threshold, so the third sample publishes [true].  A freshly
    constructed detector starts its EMA at the first sample instead: the
    EMA is -5 throughout, and the third sample publishes [true] too. *)
Theorem scenario_B (cbs : list OrientationCallback) :
  map emaZ (statesAfter onSample (map accelZ [-5; -5; -5]%float)
              (scenarioB_start cbs)) =
  [ Some (-1.25)%float; Some (-2.1875)%float; Some (-2.890625)%float ] /\
  strictlyDecreasingFrom 0%float [-1.25; -2.1875; -2.890625]%float = true /\
  allAlong meetsEnter (map accelZ [-5; -5; -5]%float) (scenarioB_start cbs) = true /\
  logs onSample (map accelZ [-5; -5; -5]%float) (scenarioB_start cbs) =
  [ []; []; broadcast true cbs ] /\
  map emaZ (statesAfter onSample (map accelZ [-5; -5; -5]%float)
              (withCallbacks cbs (constructed sourceConfig mobileEnv))) =
  [ Some (-5)%float; Some (-5)%float; Some (-5)%float ] /\
  logs onSample (map accelZ [-5; -5; -5]%float)
    (withCallbacks cbs (constructed sourceConfig mobileEnv)) =
  [ []; []; broadcast true cbs ].
Proof.
  unfold scenarioB_start. rewrite withCallbacks_eq. repeat split.
Qed.

(** C6 as stated fails: after the three samples the EMA is -2.890625, more
    than 0.9 away from -1.95 (and -5, further still, for a detector that has
    seen no sample before). *)
Lemma scenario_B_not_minus_1_95 :
  emaZ (fst (run onSample (map accelZ [-5; -5; -5]%float) (scenarioB_start []))) =
    Some (-2.890625)%float /\
  (0.9 <? PrimFloat.abs (-2.890625 - -1.95))%float = true /\
  emaZ (fst (run onSample (map accelZ [-5; -5; -5]%float)
               (constructed sourceConfig mobileEnv))) = Some (-5)%float /\
  (0.9 <? PrimFloat.abs (-5 - -1.95))%float = true.
Proof. repeat split. Qed.

(** ** Dropped samples *)

(** C8.  A sample without a usable axis value (web: [beta] is null; mobile:
    no acceleration object, or its [z] is not a number) changes nothing: the
    handler returns the state it was given, EMA, counters and published
    value included, and calls no observer.  The handlers are total, so no
    error arises. *)
Theorem absent_axis_dropped (x : Sample) (s : OrientationService) :
  axisAbsent x = true ->
  onSample x s = (s, []) /\
  emaZ (fst (onSample x s)) = emaZ s /\
  flipStableCount (fst (onSample x s)) = flipStableCount s /\
  unflipStableCount (fst (onSample x s)) = unflipStableCount s /\
  getCurrentOrientation (fst (onSample x s)) = getCurrentOrientation s.
Proof.
  intros H.
  assert (E : onSample x s = (s, [])).
  { destruct x as [event|motion]; simpl in *.
    - unfold onDeviceOrientation. destruct (beta event); [discriminate|reflexivity].
    - unfold onDeviceMotion. destruct (accAny motion) as [a|]; [|reflexivity].
      destruct (z a); try reflexivity. discriminate. }
  rewrite E. repeat split.
Qed.

Lemma absent_axis_dropped_witness :
  onSample (WebSample {| beta := None |}) twoObservers = (twoObservers, []) /\
  onSample (MobileSample {| accelerationIncludingGravity := None;
                            acceleration := None |}) twoObservers =
    (twoObservers, []) /\
  onSample badZ twoObservers = (twoObservers, []).
Proof.
  split; [|split].
  - apply (absent_axis_dropped (WebSample {| beta := None |}) twoObservers).
    reflexivity.
  - apply (absent_axis_dropped
             (MobileSample {| accelerationIncludingGravity := None;
                              acceleration := None |}) twoObservers).
    reflexivity.
  - apply (absent_axis_dropped badZ twoObservers). reflexivity.
Defined.

(** ** Teardown *)


(** C10.  [destroy()] writes only [subscription] or [webOrientationHandler]
    and the observer list.  The published value, and so what
    [getCurrentOrientation()] returns, is what it was before teardown; so
    are the EMA, the counters and the tuning fields. *)
Theorem destroy_keeps_published
  (os : PlatformOS) (s : OrientationService) (src : Sources) :
  getCurrentOrientation (fst (destroy os (s, src))) = getCurrentOrientation s /\
  (exists sub h,
     fst (destroy os (s, src)) =
     set_callbacks [] (set_subscription sub (set_webOrientationHandler h s))) /\
  emaZ (fst (destroy os (s, src))) = emaZ s /\
  flipStableCount (fst (destroy os (s, src))) = flipStableCount s /\
  unflipStableCount (fst (destroy os (s, src))) = unflipStableCount s /\
  stableRequired (fst (destroy os (s, src))) = stableRequired s /\
  alpha (fst (destroy os (s, src))) = alpha s /\
  flipEnterThreshold (fst (destroy os (s, src))) = flipEnterThreshold s /\
  flipExitThreshold (fst (destroy os (s, src))) = flipExitThreshold s.
Proof.
  destruct (destroy_fst os s src) as (sub & h & E).
  split; [rewrite E; reflexivity|].
  split; [exists sub, h; exact E|].
  rewrite E. repeat split.
Qed.

(** * Further properties of the orientation service *)

(** ** Vocabulary *)

(** The values published along a run: one entry for each sample that
    changes [isFlipped], holding the new value. *)
Fixpoint publishedValues (xs : list Sample) (s : OrientationService) : list bool :=
  match xs with
  | [] => []
  | x :: rest =>
      (if Bool.eqb (isFlipped s) (isFlipped (fst (onSample x s))) then []
       else [isFlipped (fst (onSample x s))])
      ++ publishedValues rest (fst (onSample x s))
  end.

(** Each value is the negation of the one before it, starting after [b]. *)
Fixpoint alternating (b : bool) (vs : list bool) : bool :=
  match vs with
  | [] => true
  | v :: rest => Bool.eqb v (negb b) && alternating v rest
  end.

(** The sample takes the second branch of the handler: it does not meet the
    enter condition and meets the exit condition. *)
Definition takesExit (x : Sample) (s : OrientationService) : bool :=
  negb (meetsEnter x s) && meetsExit x s.

(** The sample takes the last branch of the handler: it is classified and
    meets neither condition. *)
Definition takesDecay (x : Sample) (s : OrientationService) : bool :=
  match classifiedValue x s with
  | Some _ => negb (meetsEnter x s) && negb (meetsExit x s)
  | None => false
  end.

(** A counter at or over [stableRequired] agrees with the published value. *)
Definition thresholdsAgree (s : OrientationService) : Prop :=
  (stableRequired s <= flipStableCount s -> isFlipped s = true) /\
  (stableRequired s <= unflipStableCount s -> isFlipped s = false).

(** The reading the mobile listener feeds to the EMA, if it uses the sample. *)
Definition reading (x : Sample) : option float :=
  match x with
  | WebSample _ => None
  | MobileSample motion =>
      match accAny motion with
      | Some a => match z a with JsNumber zv => Some zv | _ => None end
      | None => None
      end
  end.

(** The EMA after the readings of [xs], from [e], with smoothing factor [a]. *)
Definition emaAfter (a : float) (xs : list Sample) (e : option float) : option float :=
  fold_left (fun e' x => match reading x with
                         | Some zv => Some (emaUpdate a e' zv)
                         | None => e'
                         end) xs e.

(** ** Observers and detection *)

Lemma run_app {E St : Type} (h : E -> St -> St * list Invocation) xs ys s :
  run h (xs ++ ys) s =
  (fst (run h ys (fst (run h xs s))),
   snd (run h xs s) ++ snd (run h ys (fst (run h xs s)))).
Proof.
  revert s. induction xs as [|x xs IH]; intros s.
  - simpl. destruct (run h ys s); reflexivity.
  - rewrite <- app_comm_cons, !run_cons, IH. simpl. now rewrite app_assoc.
Qed.

(** A handler calls the observers exactly when it changes the published
    value, and with the new value. *)
Lemma onSample_log_exact x s :
  snd (onSample x s) =
  if Bool.eqb (isFlipped s) (isFlipped (fst (onSample x s))) then []
  else broadcast (isFlipped (fst (onSample x s))) (callbacks s).
Proof.
  by_classification x s.
  - unfold classifyStep. rewrite publishIfStable_snd, publishIfStable_fst.
    unfold updateCounters.
    destruct (meetsEnter (WebSample event) s), (meetsExit (WebSample event) s);
      reflexivity.
  - unfold classifyStep. rewrite publishIfStable_snd, publishIfStable_fst.
    unfold updateCounters.
    destruct (meetsEnter (MobileSample motion) s),
      (meetsExit (MobileSample motion) s); reflexivity.
  - simpl. now rewrite Bool.eqb_reflx.
Qed.

Lemma onSample_set_callbacks cbs x s :
  fst (onSample x (set_callbacks cbs s)) = set_callbacks cbs (fst (onSample x s)).
Proof.
  rewrite !onSample_classify.
  change (classifiedValue x (set_callbacks cbs s)) with (classifiedValue x s).
  change (meetsEnter x (set_callbacks cbs s)) with (meetsEnter x s).
  change (meetsExit x (set_callbacks cbs s)) with (meetsExit x s).
  destruct (classifiedValue x s) as [v|]; [|reflexivity].
  rewrite !classifyStep_fst. unfold updateCounters, publishedAfter.
  destruct (meetsEnter x s), (meetsExit x s), x; reflexivity.
Qed.

Lemma run_set_callbacks cbs xs s :
  fst (run onSample xs (set_callbacks cbs s)) =
    set_callbacks cbs (fst (run onSample xs s)) /\
  publishedValues xs (set_callbacks cbs s) = publishedValues xs s.
Proof.
  revert s. induction xs as [|x xs IH]; intros s; [split; reflexivity|].
  rewrite !run_cons. cbn [fst publishedValues].
  rewrite onSample_set_callbacks.
  destruct (IH (fst (onSample x s))) as [IH1 IH2].
  rewrite IH1, IH2. split; reflexivity.
Qed.

Lemma run_log_published xs s :
  snd (run onSample xs s) =
  flat_map (fun v => broadcast v (callbacks s)) (publishedValues xs s).
Proof.
  revert s. induction xs as [|x xs IH]; intros s; [reflexivity|].
  rewrite run_cons. cbn [snd publishedValues].
  rewrite flat_map_app, IH, onSample_log_exact.
  destruct (onSample_sameTuning x s) as (_ & _ & _ & _ & -> & _).
  destruct (Bool.eqb _ _); simpl; now rewrite ?app_nil_r.
Qed.

Lemma filter_neq_notin cb (l : list OrientationCallback) :
  ~ In cb l -> filter (fun c => negb (Nat.eqb c cb)) l = l.
Proof.
  induction l as [|a l IH]; intros H; [reflexivity|].
  simpl. destruct (Nat.eqb_spec a cb) as [->|N]; simpl.
  - exfalso. apply H. now left.
  - rewrite IH; [reflexivity|]. intros Hin. apply H. now right.
Qed.

(** X1.  [removeCallback] of an observer that is not registered changes
    nothing. *)
Theorem removeCallback_unregistered
  (cb : OrientationCallback) (s : OrientationService) :
  ~ In cb (callbacks s) -> removeCallback cb s = s.
Proof.
  intros H. unfold removeCallback. rewrite (filter_neq_notin _ _ H).
  destruct s; reflexivity.
Qed.

Lemma removeCallback_unregistered_witness :
  removeCallback 9 twoObservers = twoObservers.
Proof.
  apply (removeCallback_unregistered 9 twoObservers).
  simpl. intros [H|[H|[]]]; discriminate.
Defined.

(** X2.  [removeCallback] removes every registration of the observer, also
    one registered several times, and keeps the registrations of the others;
    nothing but the observer list changes. *)
Theorem removeCallback_removes_all
  (cb : OrientationCallback) (s : OrientationService) :
  ~ In cb (callbacks (removeCallback cb s)) /\
  (forall cb', cb' <> cb ->
     count_occ Nat.eq_dec (callbacks (removeCallback cb s)) cb' =
     count_occ Nat.eq_dec (callbacks s) cb') /\
  (forall l1 l2, callbacks s = l1 ++ l2 ->
     callbacks (removeCallback cb s) =
     callbacks (removeCallback cb (set_callbacks l1 s)) ++
     callbacks (removeCallback cb (set_callbacks l2 s))) /\
  set_callbacks (callbacks s) (removeCallback cb s) = s.
Proof.
  unfold removeCallback. cbn [callbacks set_callbacks].
  split; [|split; [|split]].
  - intros H. apply filter_In in H. destruct H as [_ H].
    now rewrite Nat.eqb_refl in H.
  - intros cb' N. induction (callbacks s) as [|a l IH]; [reflexivity|].
    simpl. destruct (Nat.eqb_spec a cb) as [->|Na]; simpl.
    + destruct (Nat.eq_dec cb cb'); [congruence|exact IH].
    + destruct (Nat.eq_dec a cb'); now rewrite IH.
  - intros l1 l2 ->. apply filter_app.
  - destruct s; reflexivity.
Qed.

(** X3.  Registering an observer and removing it again leaves the service
    as [removeCallback] alone would: as it was, when the observer was not
    registered before. *)
Theorem add_then_remove (cb : OrientationCallback) (s : OrientationService) :
  removeCallback cb (addCallback cb s) = removeCallback cb s /\
  (~ In cb (callbacks s) -> removeCallback cb (addCallback cb s) = s).
Proof.
  assert (E : removeCallback cb (addCallback cb s) = removeCallback cb s).
  { unfold removeCallback, addCallback. cbn [callbacks set_callbacks].
    rewrite filter_app. simpl. rewrite Nat.eqb_refl. simpl.
    now rewrite app_nil_r. }
  split; [exact E|]. intros H. rewrite E.
  unfold removeCallback. rewrite (filter_neq_notin _ _ H). destruct s; reflexivity.
Qed.

Lemma add_then_remove_witness :
  removeCallback 9 (addCallback 9 twoObservers) = twoObservers.
Proof.
  apply (proj2 (add_then_remove 9 twoObservers)).
  simpl. intros [H|[H|[]]]; discriminate.
Defined.

(** X4.  Once removed, an observer is not called by any later sample. *)
Theorem removed_observer_never_called
  (cb : OrientationCallback) (s : OrientationService) (xs : list Sample) (v : bool) :
  ~ In (cb, v) (snd (run onSample xs (removeCallback cb s))).
Proof.
  rewrite run_log_published. intros H.
  apply in_flat_map in H. destruct H as (w & _ & H).
  unfold broadcast in H. apply in_map_iff in H.
  destruct H as (c & E & Hc). injection E as -> _.
  unfold removeCallback in Hc. cbn [callbacks set_callbacks] in Hc.
  apply filter_In in Hc. destruct Hc as [_ Hc].
  now rewrite Nat.eqb_refl in Hc.
Qed.

(** X5.  Detection does not depend on the observers: registering or
    removing one changes neither the states a run goes through nor the
    values it publishes. *)
Theorem detection_ignores_observers
  (cb : OrientationCallback) (xs : list Sample) (s : OrientationService) :
  fst (run onSample xs (addCallback cb s)) =
    addCallback cb (fst (run onSample xs s)) /\
  fst (run onSample xs (removeCallback cb s)) =
    removeCallback cb (fst (run onSample xs s)) /\
  publishedValues xs (addCallback cb s) = publishedValues xs s /\
  publishedValues xs (removeCallback cb s) = publishedValues xs s.
Proof.
  destruct (run_sameTuning xs s) as (_ & _ & _ & _ & C & _).
  unfold addCallback, removeCallback. rewrite C.
  destruct (run_set_callbacks (callbacks s ++ [cb]) xs s) as [A1 A2].
  destruct (run_set_callbacks
              (filter (fun c => negb (Nat.eqb c cb)) (callbacks s)) xs s)
    as [B1 B2].
  repeat split; assumption.
Qed.

Lemma last_default_irrelevant {A : Type} (a : A) (l : list A) (d d' : A) :
  last (a :: l) d = last (a :: l) d'.
Proof.
  revert a. induction l as [|b l IH]; intros a; [reflexivity|].
  change (last (b :: l) d = last (b :: l) d'). apply IH.
Qed.

Lemma publishedValues_alternate xs s :
  alternating (isFlipped s) (publishedValues xs s) = true /\
  last (publishedValues xs s) (isFlipped s) = isFlipped (fst (run onSample xs s)).
Proof.
  revert s. induction xs as [|x xs IH]; intros s; [split; reflexivity|].
  rewrite run_cons. cbn [fst publishedValues].
  destruct (IH (fst (onSample x s))) as [A L].
  destruct (Bool.eqb (isFlipped s) (isFlipped (fst (onSample x s)))) eqn:E.
  - apply Bool.eqb_prop in E. rewrite E. split; assumption.
  - cbn [app alternating]. split.
    + rewrite A, andb_true_r.
      destruct (isFlipped s), (isFlipped (fst (onSample x s)));
        simpl in *; congruence.
    + rewrite <- L.
      destruct (publishedValues xs (fst (onSample x s))) as [|b l];
        [reflexivity|].
      change (last (b :: l) (isFlipped s) =
              last (b :: l) (isFlipped (fst (onSample x s)))).
      apply last_default_irrelevant.
Qed.

(** X6.  The observers are called exactly for the changes of the published
    value: the log of a run is one broadcast per published value, these
    values alternate, starting with the negation of the value published
    before the run, and the last of them is the value published after it. *)
Theorem published_values_alternate (xs : list Sample) (s : OrientationService) :
  snd (run onSample xs s) =
    flat_map (fun v => broadcast v (callbacks s)) (publishedValues xs s) /\
  alternating (getCurrentOrientation s) (publishedValues xs s) = true /\
  last (publishedValues xs s) (getCurrentOrientation s) =
    getCurrentOrientation (fst (run onSample xs s)).
Proof.
  split; [apply run_log_published | apply publishedValues_alternate].
Qed.

(** ** Counters and the published value *)

Lemma classifyStep_thresholdsAgree en ex t :
  1 <= stableRequired t -> atMostOneNonzero t ->
  thresholdsAgree (fst (classifyStep en ex t)).
Proof.
  intros Hsr Hone.
  pose proof (updateCounters_atMostOne en ex t Hone) as Hu.
  destruct (updateCounters_sameTuning en ex t) as (_ & _ & _ & S & _).
  rewrite classifyStep_fst. unfold thresholdsAgree, publishedAfter.
  cbn [isFlipped set_isFlipped stableRequired flipStableCount unflipStableCount].
  unfold atMostOneNonzero in Hu.
  destruct (stableRequired (updateCounters en ex t)
            <=? flipStableCount (updateCounters en ex t)) eqn:A;
    [apply Nat.leb_le in A | apply Nat.leb_gt in A];
  (destruct (stableRequired (updateCounters en ex t)
            <=? unflipStableCount (updateCounters en ex t)) eqn:B;
    [apply Nat.leb_le in B | apply Nat.leb_gt in B]);
  split; intros; trivial; lia.
Qed.

Lemma onSample_thresholdsAgree x s :
  1 <= stableRequired s -> atMostOneNonzero s -> thresholdsAgree s ->
  thresholdsAgree (fst (onSample x s)).
Proof.
  intros Hsr Hone Hagree. by_classification x s; [| |exact Hagree].
  - now apply classifyStep_thresholdsAgree.
  - now apply (classifyStep_thresholdsAgree _ _ (set_emaZ (Some v) s)).
Qed.

Lemma reachable_atMostOne s : reachable s -> atMostOneNonzero s.
Proof.
  induction 1 as [c env s src Hc|x s _ IH|cb s _ IH|cb s _ IH|os s src _ IH].
  - injection Hc as Hc.
    destruct (constructed_fresh c env) as (_ & _ & _ & F & _).
    unfold constructed in F. rewrite Hc in F. now left.
  - now apply onSample_atMostOne.
  - exact IH.
  - exact IH.
  - destruct (destroy_fst os s src) as (sub & h & ->). exact IH.
Qed.

Lemma reachable_thresholdsAgree s :
  reachable s -> 1 <= stableRequired s -> thresholdsAgree s.
Proof.
  induction 1 as [c env s src Hc|x s R IH|cb s _ IH|cb s _ IH|os s src _ IH];
    intros Hsr.
  - injection Hc as Hc.
    destruct (constructed_fresh c env) as (_ & _ & _ & F & U & _).
    unfold constructed in F, U. rewrite Hc in F, U. simpl in F, U.
    unfold thresholdsAgree. rewrite F, U. split; intros; lia.
  - destruct (onSample_sameTuning x s) as (_ & _ & _ & S & _).
    rewrite S in Hsr. apply onSample_thresholdsAgree; trivial.
    + now apply reachable_atMostOne.
    + now apply IH.
  - apply IH. exact Hsr.
  - apply IH. exact Hsr.
  - destruct (destroy_fst os s src) as (sub & h & E). rewrite E in *.
    apply IH. exact Hsr.
Qed.

Lemma onSample_isFlipped x s :
  isFlipped (fst (onSample x s)) =
  match classifiedValue x s with
  | None => isFlipped s
  | Some _ =>
      if meetsEnter x s then
        if stableRequired s <=? flipStableCount s + 1 then true
        else if stableRequired s <=? 0 then false else isFlipped s
      else if meetsExit x s then
        if stableRequired s <=? 0 then true
        else if stableRequired s <=? unflipStableCount s + 1 then false
        else isFlipped s
      else
        if stableRequired s <=? flipStableCount s - 1 then true
        else if stableRequired s <=? unflipStableCount s - 1 then false
        else isFlipped s
  end.
Proof.
  rewrite onSample_classify.
  destruct (classifiedValue x s) as [v|]; [|reflexivity].
  rewrite classifyStep_fst. unfold publishedAfter, updateCounters.
  destruct (meetsEnter x s), (meetsExit x s), x; reflexivity.
Qed.

(** A sample that meets neither condition, or is dropped, leaves the
    published value alone wherever the counters agree with it. *)
Lemma onSample_decay_isFlipped x s :
  thresholdsAgree s ->
  meetsEnter x s = false -> meetsExit x s = false ->
  isFlipped (fst (onSample x s)) = isFlipped s.
Proof.
  intros [A B] E1 E2. rewrite onSample_isFlipped, E1, E2.
  destruct (classifiedValue x s); [|reflexivity].
  destruct (stableRequired s <=? flipStableCount s - 1) eqn:F.
  - apply Nat.leb_le in F. symmetry. apply A. lia.
  - destruct (stableRequired s <=? unflipStableCount s - 1) eqn:U;
      [|reflexivity].
    apply Nat.leb_le in U. symmetry. apply B. lia.
Qed.

(** X7.  In every reachable state of a detector with [stableRequired >= 1],
    a counter that is at or over [stableRequired] agrees with the published
    value: [flipStableCount >= stableRequired] only while [true] is
    published, [unflipStableCount >= stableRequired] only while [false] is. *)
Theorem counters_agree_with_published (s : OrientationService) :
  reachable s -> 1 <= stableRequired s ->
  (stableRequired s <= flipStableCount s -> getCurrentOrientation s = true) /\
  (stableRequired s <= unflipStableCount s -> getCurrentOrientation s = false).
Proof. intros R H. exact (reachable_thresholdsAgree s R H). Qed.

Lemma counters_agree_with_published_witness :
  getCurrentOrientation
    (fst (onSample (tilt 170%float)
       (fst (onSample (tilt 170%float)
          (fst (onSample (tilt 170%float)
             (constructed sourceConfig webEnv))))))) = true.
Proof.
  apply (counters_agree_with_published
           (fst (onSample (tilt 170%float)
              (fst (onSample (tilt 170%float)
                 (fst (onSample (tilt 170%float)
                    (constructed sourceConfig webEnv)))))))).
  - apply (reach_sample (tilt 170%float)), (reach_sample (tilt 170%float)),
      (reach_sample (tilt 170%float)).
    apply (reach_construct sourceConfig webEnv _
             (snd (startListening webEnv (fieldInitialisers sourceConfig, detached)))).
    reflexivity.
  - simpl. lia.
  - simpl. lia.
Defined.

(** X8.  In a reachable state of a detector with [stableRequired >= 1], a
    sample that meets neither the enter nor the exit condition (a dead-zone
    value, a value on a threshold, a dropped sample) calls no observer and
    leaves the published value as it is, whatever the counters hold. *)
Theorem undecided_sample_never_publishes (x : Sample) (s : OrientationService) :
  reachable s -> 1 <= stableRequired s ->
  meetsEnter x s = false -> meetsExit x s = false ->
  snd (onSample x s) = [] /\
  getCurrentOrientation (fst (onSample x s)) = getCurrentOrientation s.
Proof.
  intros R Hsr E1 E2.
  pose proof (onSample_decay_isFlipped x s
                (reachable_thresholdsAgree s R Hsr) E1 E2) as H.
  split; [|exact H].
  rewrite onSample_log_exact, H. now rewrite Bool.eqb_reflx.
Qed.

Lemma undecided_sample_never_publishes_witness :
  snd (onSample (tilt 90%float)
         (fst (onSample (tilt 170%float)
            (fst (onSample (tilt 170%float)
               (withCallbacks [7; 4] (constructed sourceConfig webEnv))))))) = [].
Proof.
  apply (undecided_sample_never_publishes (tilt 90%float)
           (fst (onSample (tilt 170%float)
              (fst (onSample (tilt 170%float)
                 (withCallbacks [7; 4] (constructed sourceConfig webEnv))))))).
  - apply (reach_sample (tilt 170%float)), (reach_sample (tilt 170%float)).
    apply (reach_addCallback 4), (reach_addCallback 7).
    apply (reach_construct sourceConfig webEnv _
             (snd (startListening webEnv (fieldInitialisers sourceConfig, detached)))).
    reflexivity.
  - simpl. lia.
  - reflexivity.
  - reflexivity.
Defined.

(** X9.  In a reachable state of a detector with [stableRequired >= 1], a
    sample changes the published value only in two ways: to [true], by
    meeting the enter condition when the flip counter it raises reaches
    [stableRequired]; to [false], by taking the exit branch when the unflip
    counter it raises reaches [stableRequired]. *)
Theorem publication_needs_stable_count (x : Sample) (s : OrientationService) :
  reachable s -> 1 <= stableRequired s ->
  getCurrentOrientation (fst (onSample x s)) <> getCurrentOrientation s ->
  (getCurrentOrientation (fst (onSample x s)) = true /\
   meetsEnter x s = true /\
   stableRequired s <= flipStableCount s + 1) \/
  (getCurrentOrientation (fst (onSample x s)) = false /\
   takesExit x s = true /\
   stableRequired s <= unflipStableCount s + 1).
Proof.
  unfold getCurrentOrientation, takesExit. intros R Hsr Hne.
  assert (L0 : (stableRequired s <=? 0) = false) by (apply Nat.leb_gt; lia).
  destruct (meetsEnter x s) eqn:E1; [|destruct (meetsExit x s) eqn:E2].
  - left. rewrite onSample_isFlipped, E1, L0 in *.
    destruct (classifiedValue x s); [|contradiction].
    destruct (stableRequired s <=? flipStableCount s + 1) eqn:F;
      [|contradiction].
    apply Nat.leb_le in F. auto.
  - right. rewrite onSample_isFlipped, E1, E2, L0 in *.
    destruct (classifiedValue x s); [|contradiction].
    destruct (stableRequired s <=? unflipStableCount s + 1) eqn:U;
      [|contradiction].
    apply Nat.leb_le in U. auto.
  - exfalso. apply Hne.
    apply onSample_decay_isFlipped; trivial.
    now apply reachable_thresholdsAgree.
Qed.

Lemma publication_needs_stable_count_witness :
  meetsEnter (tilt 170%float)
    (fst (onSample (tilt 170%float)
       (fst (onSample (tilt 170%float) (constructed sourceConfig webEnv))))) = true.
Proof.
  destruct (publication_needs_stable_count (tilt 170%float)
              (fst (onSample (tilt 170%float)
                 (fst (onSample (tilt 170%float)
                    (constructed sourceConfig webEnv))))))
    as [(_ & H & _)|(H & _)].
  - apply (reach_sample (tilt 170%float)), (reach_sample (tilt 170%float)).
    apply (reach_construct sourceConfig webEnv _
             (snd (startListening webEnv (fieldInitialisers sourceConfig, detached)))).
    reflexivity.
  - simpl. lia.
  - discriminate.
  - exact H.
  - discriminate H.
Defined.

(** ** Streaks in both directions *)

Lemma onSample_counts x s :
  flipStableCount (fst (onSample x s)) =
    match classifiedValue x s with
    | None => flipStableCount s
    | Some _ => if meetsEnter x s then flipStableCount s + 1
                else if meetsExit x s then 0 else flipStableCount s - 1
    end /\
  unflipStableCount (fst (onSample x s)) =
    match classifiedValue x s with
    | None => unflipStableCount s
    | Some _ => if meetsEnter x s then 0
                else if meetsExit x s then unflipStableCount s + 1
                else unflipStableCount s - 1
    end.
Proof.
  rewrite onSample_classify.
  destruct (classifiedValue x s) as [v|]; [|split; reflexivity].
  rewrite classifyStep_fst. unfold updateCounters.
  destruct (meetsEnter x s), (meetsExit x s), x; split; reflexivity.
Qed.

Lemma takesExit_classified x s :
  takesExit x s = true ->
  meetsEnter x s = false /\ meetsExit x s = true /\ classifiedValue x s <> None.
Proof.
  unfold takesExit. intros H. apply andb_true_iff in H. destruct H as [H1 H2].
  apply negb_true_iff in H1. repeat split; trivial.
  unfold meetsExit in H2. destruct (classifiedValue x s); discriminate.
Qed.

Lemma takesDecay_classified x s :
  takesDecay x s = true ->
  meetsEnter x s = false /\ meetsExit x s = false /\ classifiedValue x s <> None.
Proof.
  unfold takesDecay. destruct (classifiedValue x s); [|discriminate].
  intros H. apply andb_true_iff in H. destruct H as [H1 H2].
  apply negb_true_iff in H1. apply negb_true_iff in H2.
  repeat split; trivial. discriminate.
Qed.

(** What one sample taking the exit branch does. *)
Lemma onSample_exit x s :
  1 <= stableRequired s -> takesExit x s = true ->
  flipStableCount (fst (onSample x s)) = 0 /\
  unflipStableCount (fst (onSample x s)) = unflipStableCount s + 1 /\
  isFlipped (fst (onSample x s)) =
    (isFlipped s && negb (stableRequired s <=? unflipStableCount s + 1)) /\
  snd (onSample x s) =
    if isFlipped s && (stableRequired s <=? unflipStableCount s + 1)
    then broadcast false (callbacks s) else [].
Proof.
  intros Hsr H. destruct (takesExit_classified x s H) as (E1 & E2 & C).
  assert (L0 : (stableRequired s <=? 0) = false) by (apply Nat.leb_gt; lia).
  destruct (onSample_counts x s) as [F U].
  assert (B : isFlipped (fst (onSample x s)) =
              (isFlipped s && negb (stableRequired s <=? unflipStableCount s + 1))).
  { rewrite onSample_isFlipped, E1, E2, L0.
    destruct (classifiedValue x s); [|contradiction].
    destruct (stableRequired s <=? unflipStableCount s + 1);
      now rewrite ?andb_false_r, ?andb_true_r. }
  rewrite E1, E2 in F, U.
  destruct (classifiedValue x s); [|contradiction].
  repeat split; trivial.
  rewrite onSample_log_exact, B.
  destruct (isFlipped s), (stableRequired s <=? unflipStableCount s + 1);
    reflexivity.
Qed.

(** A streak of samples that all take the exit branch: the unflip counter
    climbs by one per sample, and the observers are called once, with
    [false], when it first reaches [stableRequired], if [true] was published. *)
Lemma exit_streak xs s :
  1 <= stableRequired s ->
  allAlong takesExit xs s = true ->
  unflipStableCount (fst (run onSample xs s)) = unflipStableCount s + length xs /\
  (1 <= length xs -> flipStableCount (fst (run onSample xs s)) = 0) /\
  isFlipped (fst (run onSample xs s)) =
    (isFlipped s &&
     negb ((1 <=? length xs)
           && (stableRequired s <=? unflipStableCount s + length xs))) /\
  snd (run onSample xs s) =
    if isFlipped s && (1 <=? length xs)
       && (stableRequired s <=? unflipStableCount s + length xs)
    then broadcast false (callbacks s) else [].
Proof.
  revert s. induction xs as [|x xs IH]; intros s Hsr H.
  - simpl. rewrite Nat.add_0_r, andb_true_r, andb_false_r.
    repeat split; trivial. lia.
  - simpl in H. apply andb_true_iff in H. destruct H as [Hx Hxs].
    destruct (onSample_exit x s Hsr Hx) as (F1 & U1 & B1 & L1).
    destruct (onSample_sameTuning x s) as (_ & _ & _ & S1 & C1 & _).
    assert (Hsr1 : 1 <= stableRequired (fst (onSample x s))) by lia.
    specialize (IH _ Hsr1 Hxs). destruct IH as (U2 & F2 & B2 & L2).
    rewrite run_cons. cbn [fst snd length].
    rewrite U2, B2, L2, L1, B1, U1, S1, C1.
    replace (unflipStableCount s + 1 + length xs)
      with (unflipStableCount s + S (length xs)) by lia.
    change (1 <=? S (length xs)) with true.
    rewrite andb_true_r. cbn [andb].
    split; [reflexivity|]. split.
    { intros _. destruct xs as [|x' xs']; [exact F1 | apply F2; simpl; lia]. }
    destruct (stableRequired s <=? unflipStableCount s + 1) eqn:A;
      destruct (stableRequired s <=? unflipStableCount s + S (length xs)) eqn:B;
      destruct (1 <=? length xs) eqn:D;
      try (apply Nat.leb_le in A); try (apply Nat.leb_gt in A);
      try (apply Nat.leb_le in B); try (apply Nat.leb_gt in B);
      try (apply Nat.leb_le in D); try (apply Nat.leb_gt in D);
      try lia;
      destruct (isFlipped s); cbn; rewrite ?app_nil_r; auto.
Qed.

Lemma enter_streak_unflip xs s :
  allAlong meetsEnter xs s = true -> 1 <= length xs ->
  unflipStableCount (fst (run onSample xs s)) = 0.
Proof.
  revert s. induction xs as [|x xs IH]; intros s H Hlen; [simpl in Hlen; lia|].
  simpl in H. apply andb_true_iff in H. destruct H as [Hx Hxs].
  rewrite run_cons. cbn [fst].
  destruct xs as [|x' xs']; [apply (onSample_enter x s Hx)|].
  apply IH; [exact Hxs | simpl; lia].
Qed.

(** The state a freshly constructed detector with observers starts in. *)
Lemma fresh_with_observers c env cbs :
  callbacks (withCallbacks cbs (constructed c env)) = cbs /\
  isFlipped (withCallbacks cbs (constructed c env)) = false /\
  flipStableCount (withCallbacks cbs (constructed c env)) = 0 /\
  unflipStableCount (withCallbacks cbs (constructed c env)) = 0 /\
  stableRequired (withCallbacks cbs (constructed c env)) = init_stableRequired c.
Proof.
  destruct (constructed_fresh c env) as (K1 & K2 & _ & K4 & K5 & K6 & _).
  rewrite withCallbacks_eq. simpl. rewrite K1. auto.
Qed.

(** X10.  A full cycle.  From a freshly constructed detector with
    [stableRequired >= 1]: after a streak of at least [stableRequired]
    samples meeting the enter condition, a streak of samples taking the exit
    branch publishes [false] exactly when it is at least [stableRequired]
    long; the observers see [true] once and then, in that case, [false] once. *)
Theorem flip_then_unflip
  (c : Config) (env : Env) (cbs : list OrientationCallback) (xs ys : list Sample) :
  1 <= init_stableRequired c ->
  init_stableRequired c <= length xs ->
  allAlong meetsEnter xs (withCallbacks cbs (constructed c env)) = true ->
  allAlong takesExit ys
    (fst (run onSample xs (withCallbacks cbs (constructed c env)))) = true ->
  snd (run onSample (xs ++ ys) (withCallbacks cbs (constructed c env))) =
    broadcast true cbs ++
    (if init_stableRequired c <=? length ys then broadcast false cbs else []) /\
  getCurrentOrientation
    (fst (run onSample (xs ++ ys) (withCallbacks cbs (constructed c env)))) =
    negb (init_stableRequired c <=? length ys).
Proof.
  intros Hsr Hlen Hxs Hys.
  destruct (fresh_with_observers c env cbs) as (H1 & H2 & H3 & H4 & H5).
  set (s0 := withCallbacks cbs (constructed c env)) in *.
  destruct (enter_streak xs s0 Hxs) as (F & B & L).
  pose proof (enter_streak_unflip xs s0 Hxs ltac:(lia)) as U.
  destruct (run_sameTuning xs s0) as (_ & _ & _ & S & C & _).
  rewrite H2, H3, H5, Nat.add_0_l in B, L. rewrite H1 in L.
  assert (T : (1 <=? length xs) && (init_stableRequired c <=? length xs) = true).
  { apply andb_true_iff. split; apply Nat.leb_le; lia. }
  rewrite <- andb_assoc, T in L. rewrite T in B. cbn [negb andb orb] in B, L.
  destruct (exit_streak ys (fst (run onSample xs s0))) as (_ & _ & B' & L');
    [lia | exact Hys |].
  rewrite ?B, ?U, ?S, ?C, ?H1, ?H5, ?Nat.add_0_l in B', L'.
  rewrite <- andb_assoc in L'. cbn [andb] in B', L'.
  assert (Q : (1 <=? length ys) && (init_stableRequired c <=? length ys) =
              (init_stableRequired c <=? length ys)).
  { destruct (init_stableRequired c <=? length ys) eqn:A;
      [|now rewrite andb_false_r].
    apply Nat.leb_le in A. rewrite andb_true_r. apply Nat.leb_le. lia. }
  rewrite Q in B', L'. rewrite ?C, ?H1 in L'.
  rewrite run_app. cbn [fst snd]. unfold getCurrentOrientation.
  rewrite L, L', B'. split; reflexivity.
Qed.

Lemma flip_then_unflip_witness :
  snd (run onSample
         (map tilt [170; 172; 175; 178]%float ++ map tilt [10; 12; 5]%float)
         (withCallbacks [7; 4] (constructed sourceConfig webEnv))) =
  [(7, true); (4, true); (7, false); (4, false)].
Proof.
  apply (flip_then_unflip sourceConfig webEnv [7; 4]
           (map tilt [170; 172; 175; 178]%float) (map tilt [10; 12; 5]%float)).
  - simpl. lia.
  - simpl. lia.
  - reflexivity.
  - reflexivity.
Defined.

(** The state after a streak that is too short to publish. *)
Lemma short_enter_streak c env cbs xs :
  1 <= init_stableRequired c ->
  length xs < init_stableRequired c ->
  allAlong meetsEnter xs (withCallbacks cbs (constructed c env)) = true ->
  snd (run onSample xs (withCallbacks cbs (constructed c env))) = [] /\
  isFlipped (fst (run onSample xs (withCallbacks cbs (constructed c env)))) = false /\
  flipStableCount (fst (run onSample xs (withCallbacks cbs (constructed c env)))) =
    length xs /\
  unflipStableCount
    (fst (run onSample xs (withCallbacks cbs (constructed c env)))) = 0 /\
  stableRequired (fst (run onSample xs (withCallbacks cbs (constructed c env)))) =
    init_stableRequired c /\
  callbacks (fst (run onSample xs (withCallbacks cbs (constructed c env)))) = cbs.
Proof.
  intros Hsr Hlen Hxs.
  destruct (fresh_with_observers c env cbs) as (H1 & H2 & H3 & H4 & H5).
  set (s0 := withCallbacks cbs (constructed c env)) in *.
  destruct (enter_streak xs s0 Hxs) as (F & B & L).
  destruct (run_sameTuning xs s0) as (_ & _ & _ & S & C & _).
  rewrite H2, H3, H5, Nat.add_0_l in B, L.
  assert (T : (init_stableRequired c <=? length xs) = false)
    by (apply Nat.leb_gt; lia).
  rewrite T, ?andb_false_r in B, L. rewrite F, H3, S, C, H5, H1.
  repeat split; trivial.
  destruct xs as [|x xs']; [exact H4|].
  apply enter_streak_unflip; [exact Hxs | simpl; lia].
Qed.

(** X11.  An exit sample resets a streak.  From a freshly constructed
    detector with [stableRequired >= 1]: fewer than [stableRequired] samples
    meeting the enter condition, then one sample taking the exit branch,
    then further samples meeting the enter condition publish [true] exactly
    when these further samples alone number [stableRequired]. *)
Theorem exit_sample_resets_streak
  (c : Config) (env : Env) (cbs : list OrientationCallback)
  (xs : list Sample) (y : Sample) (zs : list Sample) :
  1 <= init_stableRequired c ->
  length xs < init_stableRequired c ->
  allAlong meetsEnter xs (withCallbacks cbs (constructed c env)) = true ->
  takesExit y
    (fst (run onSample xs (withCallbacks cbs (constructed c env)))) = true ->
  allAlong meetsEnter zs
    (fst (run onSample (xs ++ [y]) (withCallbacks cbs (constructed c env)))) = true ->
  snd (run onSample (xs ++ [y] ++ zs) (withCallbacks cbs (constructed c env))) =
    if init_stableRequired c <=? length zs then broadcast true cbs else [].
Proof.
  intros Hsr Hlen Hxs Hy Hzs.
  destruct (short_enter_streak c env cbs xs Hsr Hlen Hxs)
    as (L1 & B1 & F1 & U1 & S1 & C1).
  set (s0 := withCallbacks cbs (constructed c env)) in *.
  rewrite app_assoc, run_app. cbn [snd].
  rewrite run_app, run_one in *. cbn [fst snd] in *.
  set (s1 := fst (run onSample xs s0)) in *.
  destruct (onSample_exit y s1) as (F2 & U2 & B2 & L2); [lia | exact Hy |].
  destruct (onSample_sameTuning y s1) as (_ & _ & _ & S2 & C2 & _).
  rewrite B1 in B2, L2. cbn [andb] in B2, L2.
  destruct (enter_streak zs (fst (onSample y s1)) Hzs) as (_ & _ & L3).
  rewrite L1, L2, L3, B2, F2, S2, C2, S1, C1, Nat.add_0_l. cbn [negb andb app].
  destruct (init_stableRequired c <=? length zs) eqn:A;
    [|now rewrite andb_false_r].
  apply Nat.leb_le in A.
  replace (1 <=? length zs) with true by (symmetry; apply Nat.leb_le; lia).
  reflexivity.
Qed.

Lemma exit_sample_resets_streak_witness :
  snd (run onSample
         (map tilt [170; 172]%float ++ [tilt 10%float] ++ map tilt [175; 178]%float)
         (withCallbacks [7; 4] (constructed sourceConfig webEnv))) = [].
Proof.
  apply (exit_sample_resets_streak sourceConfig webEnv [7; 4]
           (map tilt [170; 172]%float) (tilt 10%float) (map tilt [175; 178]%float)).
  - simpl. lia.
  - simpl. lia.
  - reflexivity.
  - reflexivity.
  - reflexivity.
Defined.

(** X12.  A dead-zone sample does not reset a streak, it shortens it by one.
    From a freshly constructed detector with [stableRequired >= 1]: [k]
    samples meeting the enter condition ([k < stableRequired]), then one
    sample meeting neither condition, then [j] samples meeting the enter
    condition publish [true] exactly when [j >= 1] and
    [(k - 1) + j >= stableRequired]. *)
Theorem undecided_sample_shortens_streak
  (c : Config) (env : Env) (cbs : list OrientationCallback)
  (xs : list Sample) (y : Sample) (zs : list Sample) :
  1 <= init_stableRequired c ->
  length xs < init_stableRequired c ->
  allAlong meetsEnter xs (withCallbacks cbs (constructed c env)) = true ->
  takesDecay y
    (fst (run onSample xs (withCallbacks cbs (constructed c env)))) = true ->
  allAlong meetsEnter zs
    (fst (run onSample (xs ++ [y]) (withCallbacks cbs (constructed c env)))) = true ->
  snd (run onSample (xs ++ [y] ++ zs) (withCallbacks cbs (constructed c env))) =
    if (1 <=? length zs)
       && (init_stableRequired c <=? (length xs - 1) + length zs)
    then broadcast true cbs else [].
Proof.
  intros Hsr Hlen Hxs Hy Hzs.
  destruct (short_enter_streak c env cbs xs Hsr Hlen Hxs)
    as (L1 & B1 & F1 & U1 & S1 & C1).
  set (s0 := withCallbacks cbs (constructed c env)) in *.
  rewrite app_assoc, run_app. cbn [snd].
  rewrite run_app, run_one in *. cbn [fst snd] in *.
  set (s1 := fst (run onSample xs s0)) in *.
  destruct (takesDecay_classified y s1 Hy) as (E1 & E2 & Cl).
  destruct (onSample_counts y s1) as [F2 _].
  pose proof (onSample_isFlipped y s1) as B2.
  rewrite E1, E2 in F2, B2.
  destruct (classifiedValue y s1); [|contradiction].
  rewrite F1, U1, S1, B1 in B2. rewrite F1 in F2.
  replace (init_stableRequired c <=? length xs - 1) with false in B2
    by (symmetry; apply Nat.leb_gt; lia).
  replace (init_stableRequired c <=? 0 - 1) with false in B2
    by (symmetry; apply Nat.leb_gt; simpl; lia).
  destruct (onSample_sameTuning y s1) as (_ & _ & _ & S2 & C2 & _).
  pose proof (onSample_log_exact y s1) as L2.
  rewrite B2, B1 in L2. cbn [Bool.eqb] in L2.
  destruct (enter_streak zs (fst (onSample y s1)) Hzs) as (_ & _ & L3).
  rewrite L1, L2, L3, B2, F2, S2, C2, S1, C1. reflexivity.
Qed.

Lemma undecided_sample_shortens_streak_witness :
  snd (run onSample
         (map tilt [170; 172]%float ++ [tilt 90%float] ++ map tilt [175; 178]%float)
         (withCallbacks [7; 4] (constructed sourceConfig webEnv))) =
  [(7, true); (4, true)].
Proof.
  apply (undecided_sample_shortens_streak sourceConfig webEnv [7; 4]
           (map tilt [170; 172]%float) (tilt 90%float) (map tilt [175; 178]%float)).
  - simpl. lia.
  - simpl. lia.
  - reflexivity.
  - reflexivity.
  - reflexivity.
Defined.

(** ** Sources and teardown *)

(** The continuation of [requestPermission()] in [startWebOrientation]:
    [if (response === 'granted')
       window.addEventListener('deviceorientation', this.webOrientationHandler!)].
    A listener that is null by then attaches nothing. *)
Definition permissionResponse (granted : bool) (p : OrientationService * Sources)
  : OrientationService * Sources :=
  let (s, src) := p in
  if granted && webOrientationHandler s
  then (s, {| windowListener := true;
              deviceMotionListener := deviceMotionListener src |})
  else (s, src).

(** What can happen to a constructed service, [destroy] apart. *)
Inductive Event : Type :=
| SampleArrives (x : Sample)
| PermissionAnswered (granted : bool)
| Registers (cb : OrientationCallback)
| Unregisters (cb : OrientationCallback).

Definition react (e : Event) (p : OrientationService * Sources)
  : (OrientationService * Sources) * list Invocation :=
  match e with
  | SampleArrives x => deliver x p
  | PermissionAnswered granted => (permissionResponse granted p, [])
  | Registers cb => ((addCallback cb (fst p), snd p), [])
  | Unregisters cb => ((removeCallback cb (fst p), snd p), [])
  end.

(** The event comes from outside: a sample or a permission answer. *)
Definition external (e : Event) : bool :=
  match e with
  | SampleArrives _ | PermissionAnswered _ => true
  | Registers _ | Unregisters _ => false
  end.

(** How the sources and the service's own handles hang together on the
    platform of [env]. *)
Definition attachedAsStarted (env : Env) (p : OrientationService * Sources) : Prop :=
  (windowListener (snd p) = true -> webOrientationHandler (fst p) = true) /\
  (deviceMotionListener (snd p) = true -> subscription (fst p) = true) /\
  (isWeb (OS env) = true ->
   subscription (fst p) = false /\ deviceMotionListener (snd p) = false) /\
  (isWeb (OS env) = false ->
   webOrientationHandler (fst p) = false /\ windowListener (snd p) = false).

Lemma startListening_attached c env :
  attachedAsStarted env (startListening env (fieldInitialisers c, detached)).
Proof.
  unfold attachedAsStarted, startListening, startWebOrientation,
    startMobileOrientation.
  destruct (isWeb (OS env)); [destruct (hasDeviceOrientationEvent env)|];
    simpl; repeat split; congruence.
Qed.

Lemma deliver_sources x p :
  snd (fst (deliver x p)) = snd p /\
  sameTuning (fst p) (fst (fst (deliver x p))).
Proof.
  destruct p as [s src]. unfold deliver.
  destruct (match x with
            | WebSample _ => windowListener src
            | MobileSample _ => deviceMotionListener src
            end); [|split; [reflexivity | apply sameTuning_refl]].
  pose proof (onSample_sameTuning x s) as T.
  destruct (onSample x s) as [s1 l]. split; [reflexivity | exact T].
Qed.

Lemma react_attached env e p :
  attachedAsStarted env p -> attachedAsStarted env (fst (react e p)).
Proof.
  unfold attachedAsStarted. intros (A & B & C & D).
  destruct e as [x|granted|cb|cb]; cbn [react fst].
  - destruct (deliver_sources x p) as [-> (_ & _ & _ & _ & _ & -> & ->)].
    auto.
  - destruct p as [s src]. unfold permissionResponse. simpl in *.
    destruct (granted && webOrientationHandler s) eqn:G; simpl; [|auto].
    apply andb_true_iff in G. destruct G as [_ G].
    split; [intros _; exact G|]. split; [exact B|]. split; [exact C|].
    intros W. destruct (D W). congruence.
  - simpl. auto.
  - simpl. auto.
Qed.

Lemma run_react_attached env es p :
  attachedAsStarted env p -> attachedAsStarted env (fst (run react es p)).
Proof.
  revert p. induction es as [|e es IH]; intros p H; [exact H|].
  rewrite run_cons. cbn [fst]. apply IH. now apply react_attached.
Qed.

Lemma destroy_detaches env p :
  attachedAsStarted env p ->
  snd (destroy (OS env) p) = detached /\
  webOrientationHandler (fst (destroy (OS env) p)) = false.
Proof.
  destruct p as [s [w d]]. unfold attachedAsStarted, destroy, detached.
  simpl. intros (A & B & C & D).
  destruct (isWeb (OS env)) eqn:W; simpl.
  - destruct (C eq_refl) as [C1 C2]. subst d. rewrite C1.
    destruct (webOrientationHandler s) eqn:Hh; simpl; [auto|].
    destruct w; [discriminate (A eq_refl) | auto].
  - destruct (D eq_refl) as [D1 D2]. subst w.
    destruct (subscription s) eqn:Ss; simpl; [auto|].
    destruct d; [discriminate (B eq_refl) | auto].
Qed.

Lemma react_when_torn_down e p :
  external e = true ->
  snd p = detached -> webOrientationHandler (fst p) = false ->
  react e p = (p, []).
Proof.
  destruct p as [s src]. simpl. intros He -> Hh.
  destruct e as [x|granted|cb|cb]; try discriminate; simpl.
  - destruct x; reflexivity.
  - rewrite Hh, andb_false_r. reflexivity.
Qed.

(** X13.  Teardown is terminal.  However the service was constructed and
    whatever happened to it since (samples, the permission answer,
    registrations), [destroy()] on the same platform leaves it attached to
    no source; from then on no sample and no late permission answer changes
    its state or calls an observer. *)
Theorem teardown_is_terminal
  (c : Config) (env : Env) (before after : list Event) :
  forallb external after = true ->
  snd (destroy (OS env)
         (fst (run react before
                 (startListening env (fieldInitialisers c, detached))))) = detached /\
  run react after
    (destroy (OS env)
       (fst (run react before
               (startListening env (fieldInitialisers c, detached))))) =
  (destroy (OS env)
     (fst (run react before
             (startListening env (fieldInitialisers c, detached)))), []).
Proof.
  intros Hext.
  destruct (destroy_detaches env
              (fst (run react before
                      (startListening env (fieldInitialisers c, detached)))))
    as [D H].
  { apply run_react_attached, startListening_attached. }
  split; [exact D|].
  generalize dependent (destroy (OS env)
     (fst (run react before
             (startListening env (fieldInitialisers c, detached))))).
  intros p D H. induction after as [|e es IH]; [reflexivity|].
  simpl in Hext. apply andb_true_iff in Hext. destruct Hext as [He Hes].
  rewrite run_cons, (react_when_torn_down e p He D H). cbn [fst snd].
  rewrite (IH Hes). reflexivity.
Qed.

Lemma teardown_is_terminal_witness :
  fst (fst (run react
         [SampleArrives (accelZ (-9.81)%float); PermissionAnswered true;
          SampleArrives (accelZ (-9.81)%float); SampleArrives (tilt 170%float)]
         (destroy android
            (fst (run react
               [Registers 7; SampleArrives (accelZ (-9.81)%float)]
               (startListening mobileEnv
                  (fieldInitialisers sourceConfig, detached))))))) =
  fst (destroy android
         (fst (run react
            [Registers 7; SampleArrives (accelZ (-9.81)%float)]
            (startListening mobileEnv
               (fieldInitialisers sourceConfig, detached))))).
Proof.
  destruct (teardown_is_terminal sourceConfig mobileEnv
              [Registers 7; SampleArrives (accelZ (-9.81)%float)]
              [SampleArrives (accelZ (-9.81)%float); PermissionAnswered true;
               SampleArrives (accelZ (-9.81)%float);
               SampleArrives (tilt 170%float)]) as [_ H];
    [reflexivity|].
  exact (f_equal (fun r => fst (fst r)) H).
Defined.

(** X14.  A web service constructed where there is no
    [DeviceOrientationEvent] is inert: it holds no handler, is attached to
    no source, and no sample or permission answer ever changes its state or
    calls an observer. *)
Theorem inert_without_orientation_events
  (c : Config) (env : Env) (cbs : list OrientationCallback) (es : list Event) :
  isWeb (OS env) = true -> hasDeviceOrientationEvent env = false ->
  forallb external es = true ->
  startListening env (fieldInitialisers c, detached) =
    (fieldInitialisers c, detached) /\
  run react es (withCallbacks cbs (constructed c env), detached) =
    ((withCallbacks cbs (constructed c env), detached), []).
Proof.
  intros W D Hext.
  assert (E : startListening env (fieldInitialisers c, detached) =
              (fieldInitialisers c, detached)).
  { unfold startListening, startWebOrientation. now rewrite W, D. }
  split; [exact E|].
  unfold constructed. rewrite E. cbn [fst].
  set (p := (withCallbacks cbs (fieldInitialisers c), detached)).
  assert (H : webOrientationHandler (fst p) = false).
  { unfold p. cbn [fst]. rewrite withCallbacks_eq. reflexivity. }
  induction es as [|e es IH]; [reflexivity|].
  simpl in Hext. apply andb_true_iff in Hext. destruct Hext as [He Hes].
  rewrite run_cons, (react_when_torn_down e p He eq_refl H). cbn [fst snd].
  rewrite (IH Hes). reflexivity.
Qed.

Lemma inert_without_orientation_events_witness :
  snd (run react
         [SampleArrives (tilt 170%float); SampleArrives (tilt 170%float);
          SampleArrives (tilt 170%float)]
         (withCallbacks [7]
            (constructed sourceConfig
               {| OS := web; hasDeviceOrientationEvent := false;
                  hasRequestPermission := false |}), detached)) = [].
Proof.
  destruct (inert_without_orientation_events sourceConfig
              {| OS := web; hasDeviceOrientationEvent := false;
                 hasRequestPermission := false |} [7]
              [SampleArrives (tilt 170%float); SampleArrives (tilt 170%float);
               SampleArrives (tilt 170%float)]) as [_ H];
    [reflexivity | reflexivity | reflexivity |].
  exact (f_equal snd H).
Defined.

(** ** The EMA *)

Lemma onSample_emaZ x s :
  emaZ (fst (onSample x s)) =
  match reading x with
  | Some zv => Some (emaUpdate (alpha s) (emaZ s) zv)
  | None => emaZ s
  end.
Proof.
  rewrite onSample_classify.
  generalize (meetsEnter x s), (meetsExit x s). intros en ex.
  unfold classifiedValue, reading.
  destruct x as [event|motion].
  - destruct (beta event); [|reflexivity].
    rewrite classifyStep_fst. unfold updateCounters.
    destruct en, ex; reflexivity.
  - destruct (accAny motion) as [a|]; [|reflexivity].
    destruct (z a); try reflexivity.
    rewrite classifyStep_fst. unfold updateCounters.
    destruct en, ex; reflexivity.
Qed.

(** X15.  The EMA depends only on the smoothing factor and on the readings
    of the acceleration samples the listener used: after a run it is the
    fold of the EMA update over them, whatever the counters, the published
    value and the observers were, and whatever tilt samples or dropped
    samples came in between.  Once set, it is never null again. *)
Theorem ema_follows_readings (xs : list Sample) (s : OrientationService) :
  emaZ (fst (run onSample xs s)) = emaAfter (alpha s) xs (emaZ s) /\
  (emaZ s <> None -> emaZ (fst (run onSample xs s)) <> None) /\
  (forall ys, emaZ (fst (run onSample (xs ++ ys) s)) =
              emaAfter (alpha s) ys (emaZ (fst (run onSample xs s)))).
Proof.
  assert (A : forall xs s,
             emaZ (fst (run onSample xs s)) = emaAfter (alpha s) xs (emaZ s)).
  { clear. induction xs as [|x xs IH]; intros s; [reflexivity|].
    rewrite run_cons. cbn [fst]. rewrite IH, onSample_emaZ.
    destruct (onSample_sameTuning x s) as (-> & _). reflexivity. }
  split; [apply A|]. split.
  - rewrite A. generalize (emaZ s). unfold emaAfter.
    induction xs as [|x xs IH]; intros e He; [exact He|].
    simpl. apply IH. destruct (reading x); [discriminate | exact He].
  - intros ys. rewrite run_app. cbn [fst]. rewrite A.
    destruct (run_sameTuning xs s) as (-> & _). reflexivity.
Qed.

Lemma ema_follows_readings_witness :
  emaZ (fst (run onSample
               [accelZ (-5)%float; tilt 90%float; badZ; accelZ (-5)%float]
               (scenarioB_start []))) <> None.
Proof.
  apply (ema_follows_readings
           [accelZ (-5)%float; tilt 90%float; badZ; accelZ (-5)%float]
           (scenarioB_start [])).
  discriminate.
Defined.

Lemma removeCallback_removes_all_witness :
  ~ In 7 (callbacks (removeCallback 7 (addCallback 7 twoObservers))) /\
  callbacks (removeCallback 7 (addCallback 7 twoObservers)) = [4].
Proof.
  split.
  - apply (removeCallback_removes_all 7 (addCallback 7 twoObservers)).
  - reflexivity.
Defined.

(** ** The tuning fields *)

(** The four tuning fields of a service. *)
Definition tuningOf (s : OrientationService) : float * float * float * nat :=
  (alpha s, flipEnterThreshold s, flipExitThreshold s, stableRequired s).

Lemma react_tuning e p : tuningOf (fst (fst (react e p))) = tuningOf (fst p).
Proof.
  unfold tuningOf. destruct e as [x|granted|cb|cb]; cbn [react fst].
  - destruct (deliver_sources x p) as [_ (-> & -> & -> & -> & _)]. reflexivity.
  - destruct p as [s src]. unfold permissionResponse.
    destruct (granted && webOrientationHandler s); reflexivity.
  - reflexivity.
  - reflexivity.
Qed.

Lemma run_react_tuning es p :
  tuningOf (fst (fst (run react es p))) = tuningOf (fst p).
Proof.
  revert p. induction es as [|e es IH]; intros p; [reflexivity|].
  rewrite run_cons. cbn [fst]. now rewrite IH, react_tuning.
Qed.

(** X27.  Nothing writes the tuning fields.  Whatever happens to the
    exported service after its construction (samples, the permission
    answer, registrations) and after [destroy()] on any platform, [alpha],
    the two thresholds and [stableRequired] hold the values of the field
    initialisers: 0.25, -0.6, -0.2 and 3. *)
Theorem tuning_is_fixed (env : Env) (os : PlatformOS) (es : list Event) :
  tuningOf
    (fst (fst (run react es
                 (startListening env (fieldInitialisers sourceConfig, detached))))) =
    (0.25%float, (-0.6)%float, (-0.2)%float, 3) /\
  tuningOf
    (fst (destroy os
            (fst (run react es
                    (startListening env
                       (fieldInitialisers sourceConfig, detached)))))) =
    (0.25%float, (-0.6)%float, (-0.2)%float, 3).
Proof.
  assert (A : tuningOf
                (fst (fst (run react es
                   (startListening env
                      (fieldInitialisers sourceConfig, detached))))) =
              (0.25%float, (-0.6)%float, (-0.2)%float, 3)).
  { rewrite run_react_tuning.
    destruct (constructed_fresh sourceConfig env)
      as (_ & _ & _ & _ & _ & K6 & K7 & K8 & K9).
    unfold constructed in *. unfold tuningOf. now rewrite K6, K7, K8, K9. }
  split; [exact A|].
  destruct (fst (run react es
              (startListening env (fieldInitialisers sourceConfig, detached))))
    as [s src] eqn:E.
  destruct (destroy_fst os s src) as (sub & h & ->). exact A.
Qed.

(** * The data service (services/DataService.ts): stored sessions

    Conventions of the embedding.
    - An ISO time string is represented by the instant it denotes, in
      milliseconds since the epoch: what [new Date(text).getTime()] returns
      for it.  The strings the application stores come from [toISOString()],
      which gives one string per instant.  Durations are whole seconds.
      Both are [Z], where JavaScript's arithmetic on integers is exact.
    - AsyncStorage holds, under the key ['study_sessions'], nothing, a text
      that [JSON.parse] rejects, or the JSON text of a session list; the
      model keeps the list that text denotes.
    - Each method is modelled for the case that its AsyncStorage calls
      succeed and that no other method runs in between. *)

Module DataService.

Local Open Scope Z_scope.

(** [interface StudySession]. *)
Record StudySession : Type := {
  id : String.string;
  startTime : Z;
  endTime : Z;
  duration : Z;
  subject : option String.string;
  notes : option String.string;
  createdAt : Z;
  isManual : bool
}.

(** [Partial<StudySession>]: [None] is a key the object does not have.  For
    the two optional fields a key can be there and hold [undefined]. *)
Record SessionUpdates : Type := {
  u_id : option String.string;
  u_startTime : option Z;
  u_endTime : option Z;
  u_duration : option Z;
  u_subject : option (option String.string);
  u_notes : option (option String.string);
  u_createdAt : option Z;
  u_isManual : option bool
}.

Definition override {A : Type} (old : A) (new : option A) : A :=
  match new with Some v => v | None => old end.

(** [{ ...session, ...updates }]. *)
Definition merge (session : StudySession) (updates : SessionUpdates) : StudySession :=
  {| id := override (id session) (u_id updates);
     startTime := override (startTime session) (u_startTime updates);
     endTime := override (endTime session) (u_endTime updates);
     duration := override (duration session) (u_duration updates);
     subject := override (subject session) (u_subject updates);
     notes := override (notes session) (u_notes updates);
     createdAt := override (createdAt session) (u_createdAt updates);
     isManual := override (isManual session) (u_isManual updates) |}.

(** The object [{}]. *)
Definition noUpdates : SessionUpdates :=
  {| u_id := None; u_startTime := None; u_endTime := None; u_duration := None;
     u_subject := None; u_notes := None; u_createdAt := None; u_isManual := None |}.

(** A complete session passed as updates, as the sessions screen does. *)
Definition asUpdates (t : StudySession) : SessionUpdates :=
  {| u_id := Some (id t); u_startTime := Some (startTime t);
     u_endTime := Some (endTime t); u_duration := Some (duration t);
     u_subject := Some (subject t); u_notes := Some (notes t);
     u_createdAt := Some (createdAt t); u_isManual := Some (isManual t) |}.

(** What AsyncStorage holds under ['study_sessions']. *)
Inductive Stored : Type :=
| Absent
| Unparseable
| Holds (sessions : list StudySession).

(** [getSessions]: [data ? JSON.parse(data) : []], and [[]] when that throws. *)
Definition getSessions (st : Stored) : list StudySession :=
  match st with
  | Holds sessions => sessions
  | Absent => []
  | Unparseable => []
  end.

(** [addSession]: [sessions.push(session)], then [setItem]. *)
Definition addSession (session : StudySession) (st : Stored) : Stored :=
  Holds (getSessions st ++ [session]).

(** [Array.prototype.findIndex]; [None] is [-1]. *)
Fixpoint findIndex {A : Type} (f : A -> bool) (l : list A) : option nat :=
  match l with
  | [] => None
  | x :: rest => if f x then Some O else option_map S (findIndex f rest)
  end.

(** [l[index] = v] for an index within the list. *)
Fixpoint assign {A : Type} (index : nat) (v : A) (l : list A) : list A :=
  match l, index with
  | [], _ => []
  | _ :: rest, O => v :: rest
  | x :: rest, S j => x :: assign j v rest
  end.

(** [updateSession]: nothing is written when no session has the id. *)
Definition updateSession (sessionId : String.string) (updates : SessionUpdates)
  (st : Stored) : Stored :=
  let sessions := getSessions st in
  match findIndex (fun s => String.eqb (id s) sessionId) sessions with
  | Some index =>
      match nth_error sessions index with
      | Some current => Holds (assign index (merge current updates) sessions)
      | None => st
      end
  | None => st
  end.

(** [deleteSession]: [sessions.filter(s => s.id !== sessionId)], then [setItem]. *)
Definition deleteSession (sessionId : String.string) (st : Stored) : Stored :=
  Holds (filter (fun s => negb (String.eqb (id s) sessionId)) (getSessions st)).

Lemma findIndex_none {A : Type} (f : A -> bool) (l : list A) :
  Forall (fun x => f x = false) l -> findIndex f l = None.
Proof.
  induction 1 as [|x l Hx _ IH]; [reflexivity|].
  simpl. now rewrite Hx, IH.
Qed.

Lemma findIndex_first {A : Type} (f : A -> bool) (l1 : list A) (x : A) (l2 : list A) :
  Forall (fun y => f y = false) l1 -> f x = true ->
  findIndex f (l1 ++ x :: l2) = Some (length l1).
Proof.
  induction 1 as [|y l1 Hy _ IH]; intros Hx; simpl.
  - now rewrite Hx.
  - now rewrite Hy, IH.
Qed.

Lemma assign_middle {A : Type} (l1 : list A) (x v : A) (l2 : list A) :
  assign (length l1) v (l1 ++ x :: l2) = l1 ++ v :: l2.
Proof. induction l1 as [|y l1 IH]; simpl; [reflexivity | now rewrite IH]. Qed.

Lemma filter_all {A : Type} (f : A -> bool) (l : list A) :
  Forall (fun x => f x = true) l -> filter f l = l.
Proof.
  induction 1 as [|x l Hx _ IH]; [reflexivity|]. simpl. now rewrite Hx, IH.
Qed.

Lemma other_id_eqb (i : String.string) (l : list StudySession) :
  Forall (fun s => id s <> i) l ->
  Forall (fun s => String.eqb (id s) i = false) l.
Proof.
  intros H. eapply Forall_impl; [|exact H].
  intros s Hs. now apply String.eqb_neq.
Qed.

(** X16.  [deleteSession] removes every stored session that has the id and
    keeps the others, in order; it writes a list in every case, so on a
    store that is empty or unparseable it leaves the empty list. *)
Theorem deleteSession_removes_all (i : String.string) (st : Stored) :
  Forall (fun s => id s <> i) (getSessions (deleteSession i st)) /\
  (forall l1 l2, getSessions st = l1 ++ l2 ->
     getSessions (deleteSession i st) =
     getSessions (deleteSession i (Holds l1)) ++
     getSessions (deleteSession i (Holds l2))) /\
  (Forall (fun s => id s <> i) (getSessions st) ->
   getSessions (deleteSession i st) = getSessions st) /\
  deleteSession i Absent = Holds [] /\
  deleteSession i Unparseable = Holds [].
Proof.
  unfold deleteSession. cbn [getSessions].
  split; [|split; [|split; [|split; reflexivity]]].
  - apply Forall_forall. intros s Hs. apply filter_In in Hs.
    destruct Hs as [_ Hs]. apply negb_true_iff in Hs.
    now apply String.eqb_neq.
  - intros l1 l2 ->. apply filter_app.
  - intros H. apply filter_all. eapply Forall_impl; [|exact H].
    intros s Hs. apply negb_true_iff. now apply String.eqb_neq.
Qed.

Lemma updateSession_hit i u st l1 s l2 :
  getSessions st = l1 ++ s :: l2 ->
  Forall (fun t => id t <> i) l1 -> id s = i ->
  updateSession i u st = Holds (l1 ++ merge s u :: l2).
Proof.
  unfold updateSession. intros E H1 Hs. rewrite E.
  rewrite (findIndex_first _ l1 s l2 (other_id_eqb i _ H1))
    by (now apply String.eqb_eq).
  rewrite nth_error_app2 by lia. rewrite Nat.sub_diag. cbn [nth_error].
  now rewrite assign_middle.
Qed.

(** X17.  [updateSession] writes nothing when no stored session has the id;
    otherwise it merges the updates into the first session with the id and
    leaves every other session as it is, later sessions with the same id
    included. *)
Theorem updateSession_first_match
  (i : String.string) (u : SessionUpdates) (st : Stored) :
  (Forall (fun s => id s <> i) (getSessions st) -> updateSession i u st = st) /\
  (forall l1 s l2,
     getSessions st = l1 ++ s :: l2 ->
     Forall (fun t => id t <> i) l1 -> id s = i ->
     updateSession i u st = Holds (l1 ++ merge s u :: l2)).
Proof.
  split.
  - intros H. unfold updateSession.
    now rewrite (findIndex_none _ _ (other_id_eqb i _ H)).
  - intros l1 s l2. apply updateSession_hit.
Qed.

(** Sample sessions. *)
Module Samples.
Import String.
Local Open Scope string_scope.

Definition monday : StudySession :=
  {| id := "1700000000000-k3j9x0q2a"; startTime := 1700000000000;
     endTime := 1700001500000; duration := 1500;
     subject := Some "Algebra"; notes := None;
     createdAt := 1700001500000; isManual := false |}.

Definition tuesday : StudySession :=
  {| id := "1700090000000-p8d2m4z7c"; startTime := 1700090000000;
     endTime := 1700093600000; duration := 3600;
     subject := None; notes := Some "chapter 2";
     createdAt := 1700093600000; isManual := true |}.

(** A second session stored under the id of [monday]. *)
Definition mondayAgain : StudySession :=
  {| id := "1700000000000-k3j9x0q2a"; startTime := 1700100000000;
     endTime := 1700100600000; duration := 600;
     subject := None; notes := None;
     createdAt := 1700100600000; isManual := false |}.

(** The updates of an edit that clears the subject and sets the duration. *)
Definition clearSubject : SessionUpdates :=
  {| u_id := None; u_startTime := None; u_endTime := None;
     u_duration := Some 1800; u_subject := Some None; u_notes := None;
     u_createdAt := None; u_isManual := Some true |}.

End Samples.

Lemma deleteSession_removes_all_witness :
  getSessions (deleteSession (id Samples.monday)
                 (Holds [Samples.monday; Samples.tuesday; Samples.mondayAgain])) =
    [Samples.tuesday] /\
  getSessions (deleteSession (id Samples.monday) (Holds [Samples.tuesday])) =
    [Samples.tuesday].
Proof.
  split; [reflexivity|].
  apply (deleteSession_removes_all (id Samples.monday) (Holds [Samples.tuesday])).
  repeat constructor. discriminate.
Defined.

Lemma updateSession_first_match_witness :
  updateSession (id Samples.monday) Samples.clearSubject
    (Holds [Samples.tuesday; Samples.monday; Samples.mondayAgain]) =
  Holds [Samples.tuesday; merge Samples.monday Samples.clearSubject;
         Samples.mondayAgain] /\
  updateSession (id Samples.monday) Samples.clearSubject (Holds [Samples.tuesday]) =
  Holds [Samples.tuesday].
Proof.
  split.
  - apply (proj2 (updateSession_first_match (id Samples.monday) Samples.clearSubject
                    (Holds [Samples.tuesday; Samples.monday; Samples.mondayAgain]))
             [Samples.tuesday] Samples.monday [Samples.mondayAgain]).
    + reflexivity.
    + repeat constructor. discriminate.
    + reflexivity.
  - apply (proj1 (updateSession_first_match (id Samples.monday) Samples.clearSubject
                    (Holds [Samples.tuesday]))).
    repeat constructor. discriminate.
Defined.

(** X18.  [addSession] appends without looking at ids, and on a store whose
    text is unparseable the new list replaces that text.  Adding a session
    with a fresh id and deleting that id restores the stored list; adding it
    and updating that id updates the added session. *)
Theorem addSession_composes (x : StudySession) (u : SessionUpdates) (st : Stored) :
  getSessions (addSession x st) = getSessions st ++ [x] /\
  addSession x Unparseable = Holds [x] /\
  (Forall (fun s => id s <> id x) (getSessions st) ->
   deleteSession (id x) (addSession x st) = Holds (getSessions st) /\
   updateSession (id x) u (addSession x st) =
     Holds (getSessions st ++ [merge x u])) /\
  (~ Forall (fun s => id s <> id x) (getSessions st) ->
   exists l1 s l2,
     getSessions (addSession x st) = l1 ++ s :: l2 ++ [x] /\ id s = id x).
Proof.
  split; [reflexivity|]. split; [reflexivity|]. split.
  - intros H. split.
    + unfold deleteSession, addSession. cbn [getSessions].
      rewrite filter_app. cbn [filter]. rewrite String.eqb_refl. cbn [negb].
      rewrite app_nil_r. f_equal. apply filter_all.
      eapply Forall_impl; [|exact H].
      intros s Hs. apply negb_true_iff. now apply String.eqb_neq.
    + apply (updateSession_hit (id x) u (addSession x st)
               (getSessions st) x []); trivial.
  - intros H. apply Exists_Forall_neg in H.
    + apply Exists_exists in H. destruct H as (s & Hin & Hs).
      apply in_split in Hin. destruct Hin as (l1 & l2 & E).
      exists l1, s, l2. unfold addSession. cbn [getSessions]. rewrite E.
      split; [now rewrite <- app_assoc|].
      destruct (String.string_dec (id s) (id x)); [assumption|contradiction].
    + intros s. destruct (String.string_dec (id s) (id x)); [right|left]; auto.
Qed.

Lemma addSession_composes_witness :
  deleteSession (id Samples.tuesday)
    (addSession Samples.tuesday (Holds [Samples.monday])) =
  Holds [Samples.monday].
Proof.
  apply (addSession_composes Samples.tuesday noUpdates (Holds [Samples.monday])).
  repeat constructor. discriminate.
Defined.

(** X19.  An update that carries a complete session, as an edit in the
    sessions screen does, replaces the first session with the id by exactly
    that session, whatever it held before; an update without keys leaves
    the stored list as it reads. *)
Theorem updateSession_complete_or_empty
  (i : String.string) (t : StudySession) (st : Stored) :
  (forall l1 s l2,
     getSessions st = l1 ++ s :: l2 ->
     Forall (fun r => id r <> i) l1 -> id s = i ->
     updateSession i (asUpdates t) st = Holds (l1 ++ t :: l2)) /\
  getSessions (updateSession i noUpdates st) = getSessions st.
Proof.
  split.
  - intros l1 s l2 E H1 Hs.
    rewrite (updateSession_hit i (asUpdates t) st l1 s l2 E H1 Hs).
    destruct t; reflexivity.
  - unfold updateSession.
    destruct (findIndex (fun s => String.eqb (id s) i) (getSessions st))
      as [index|] eqn:F; [|reflexivity].
    destruct (nth_error (getSessions st) index) as [current|] eqn:N;
      [|reflexivity].
    cbn [getSessions]. replace (merge current noUpdates) with current
      by (destruct current; reflexivity).
    clear F. revert index N.
    induction (getSessions st) as [|x l IH]; intros [|j] N; simpl in *;
      try discriminate.
    + now injection N as ->.
    + now rewrite (IH j N).
Qed.

Lemma updateSession_complete_or_empty_witness :
  updateSession (id Samples.monday) (asUpdates Samples.tuesday)
    (Holds [Samples.monday; Samples.mondayAgain]) =
  Holds [Samples.tuesday; Samples.mondayAgain].
Proof.
  apply (proj1 (updateSession_complete_or_empty (id Samples.monday)
                  Samples.tuesday (Holds [Samples.monday; Samples.mondayAgain]))
           [] Samples.monday [Samples.mondayAgain]).
  - reflexivity.
  - constructor.
  - reflexivity.
Defined.

(** ** Statistics *)

(** [interface UserStats].  [lastStudyDate] is an instant, as [startTime]. *)
Record UserStats : Type := {
  totalStudyTime : Z;
  totalSessions : nat;
  averageSessionDuration : float;
  longestSession : Z;
  currentStreak : nat;
  lastStudyDate : option Z
}.

(** The binary64 value of an integer below 2^53 in magnitude. *)
Definition toNumber (n : Z) : float :=
  match n with
  | Z0 => 0%float
  | Zpos _ => of_uint63 (Uint63.of_Z n)
  | Zneg p => (- of_uint63 (Uint63.of_Z (Zpos p)))%float
  end.

(** The statistics [getStats] returns for no sessions, and on an error. *)
Definition zeroStats : UserStats :=
  {| totalStudyTime := 0; totalSessions := O; averageSessionDuration := 0%float;
     longestSession := 0; currentStreak := O; lastStudyDate := None |}.

(** Where [sessions.sort((a, b) => time(b) - time(a))] puts one session
    among sessions that are in order already: before the first session
    that does not start later. *)
Fixpoint insertByStart (x : StudySession) (sorted : list StudySession)
  : list StudySession :=
  match sorted with
  | [] => [x]
  | y :: rest =>
      if startTime y <=? startTime x then x :: sorted
      else y :: insertByStart x rest
  end.

(** The result of [sessions.sort(...)]: newest first, sessions that start
    at the same instant in their stored order. *)
Definition sortNewestFirst (sessions : list StudySession) : list StudySession :=
  fold_right insertByStart [] sessions.

(** [1000 * 60 * 60 * 24]. *)
Definition msPerDay : Z := 1000 * 60 * 60 * 24.

(** The loop over [sortedSessions]: [checkDate] starts as [today]; a session
    counts when [Math.floor((checkDate - sessionDate) / msPerDay) <= 1] and
    becomes the next [checkDate]; the first session that does not count ends
    the loop. *)
Fixpoint streakFrom (checkDate : Z) (sortedSessions : list StudySession) : nat :=
  match sortedSessions with
  | [] => O
  | session :: rest =>
      let diffDays := (checkDate - startTime session) / msPerDay in
      if diffDays <=? 1 then S (streakFrom (startTime session) rest) else O
  end.

(** [Math.max(d, ...ds)]. *)
Definition maximum (d : Z) (ds : list Z) : Z := fold_left Z.max ds d.

(** [getStats], with [today = new Date()] at the instant [now]. *)
Definition getStats (now : Z) (st : Stored) : UserStats :=
  let sessions := getSessions st in
  match sessions with
  | [] => zeroStats
  | first :: others =>
      let total := fold_left (fun sum session => sum + duration session) sessions 0 in
      let sortedSessions := sortNewestFirst sessions in
      {| totalStudyTime := total;
         totalSessions := length sessions;
         averageSessionDuration :=
           (toNumber total / toNumber (Z.of_nat (length sessions)))%float;
         longestSession := maximum (duration first) (map duration others);
         currentStreak := streakFrom now sortedSessions;
         lastStudyDate :=
           match sortedSessions with
           | newest :: _ => Some (startTime newest)
           | [] => None
           end |}
  end.

(** *** Sorting *)

Fixpoint descending (ts : list Z) : Prop :=
  match ts with
  | [] => True
  | t :: rest => Forall (fun u => u <= t) rest /\ descending rest
  end.

Lemma insertByStart_perm x l : Permutation.Permutation (x :: l) (insertByStart x l).
Proof.
  induction l as [|y l IH]; simpl; [apply Permutation.Permutation_refl|].
  destruct (startTime y <=? startTime x).
  - apply Permutation.Permutation_refl.
  - eapply Permutation.perm_trans; [apply Permutation.perm_swap|].
    now apply Permutation.perm_skip.
Qed.

Lemma sortNewestFirst_perm l : Permutation.Permutation l (sortNewestFirst l).
Proof.
  induction l as [|x l IH]; simpl; [constructor|].
  eapply Permutation.perm_trans; [|apply insertByStart_perm].
  now apply Permutation.perm_skip.
Qed.

Lemma insertByStart_descending x l :
  descending (map startTime l) ->
  descending (map startTime (insertByStart x l)).
Proof.
  induction l as [|y l IH]; simpl; [auto|].
  intros [Hy Hl]. destruct (startTime y <=? startTime x) eqn:C; simpl.
  - apply Z.leb_le in C. split; [|split; assumption].
    constructor; [exact C|].
    eapply Forall_impl; [|exact Hy]. intros u Hu. cbv beta in Hu. lia.
  - apply Z.leb_gt in C. split; [|now apply IH].
    apply Forall_forall. intros u Hu. apply in_map_iff in Hu.
    destruct Hu as (s & <- & Hs).
    apply (Permutation.Permutation_in _
             (Permutation.Permutation_sym (insertByStart_perm x l))) in Hs.
    destruct Hs as [->|Hs]; [lia|].
    rewrite Forall_forall in Hy. apply Hy. now apply in_map.
Qed.

Lemma sortNewestFirst_descending l :
  descending (map startTime (sortNewestFirst l)).
Proof.
  induction l as [|x l IH]; simpl; [exact I|].
  now apply insertByStart_descending.
Qed.

(** The first session of the sorted list starts latest. *)
Lemma sortNewestFirst_head l newest rest :
  sortNewestFirst l = newest :: rest ->
  In newest l /\ forall s, In s l -> startTime s <= startTime newest.
Proof.
  intros E. pose proof (sortNewestFirst_perm l) as P.
  pose proof (sortNewestFirst_descending l) as D.
  rewrite E in P, D. simpl in D. destruct D as [D _]. split.
  - apply (Permutation.Permutation_in _ (Permutation.Permutation_sym P)).
    now left.
  - intros s Hs. apply (Permutation.Permutation_in _ P) in Hs.
    destruct Hs as [->|Hs]; [lia|].
    rewrite Forall_forall in D. apply D. now apply in_map.
Qed.

Lemma counts_iff (a : Z) : (a / msPerDay <=? 1) = true <-> a < 2 * msPerDay.
Proof.
  unfold msPerDay. rewrite Z.leb_le. split; intros H.
  - destruct (Z_lt_le_dec a (2 * (1000 * 60 * 60 * 24))) as [L|G]; [exact L|].
    apply (Z.div_le_lower_bound a (1000 * 60 * 60 * 24) 2) in G; lia.
  - assert (a / (1000 * 60 * 60 * 24) < 2); [|lia].
    apply Z.div_lt_upper_bound; lia.
Qed.

(** *** Sums and maxima *)

Fixpoint sumDurations (l : list StudySession) : Z :=
  match l with
  | [] => 0
  | s :: rest => duration s + sumDurations rest
  end.

Lemma fold_sum l a :
  fold_left (fun sum session => sum + duration session) l a = a + sumDurations l.
Proof.
  revert a. induction l as [|s l IH]; intros a; simpl; [lia|].
  rewrite IH. lia.
Qed.

Lemma sumDurations_app l l' :
  sumDurations (l ++ l') = sumDurations l + sumDurations l'.
Proof. induction l as [|s l IH]; simpl; lia. Qed.

Lemma sumDurations_perm l l' :
  Permutation.Permutation l l' -> sumDurations l = sumDurations l'.
Proof. induction 1; simpl; lia. Qed.

Lemma maximum_spec d ds :
  d <= maximum d ds /\
  Forall (fun e => e <= maximum d ds) ds /\
  In (maximum d ds) (d :: ds).
Proof.
  unfold maximum. revert d. induction ds as [|e ds IH]; intros d; simpl.
  - repeat split; [lia | constructor | now left].
  - destruct (IH (Z.max d e)) as (A & B & C). repeat split.
    + lia.
    + constructor; [lia | exact B].
    + destruct C as [C|C]; [|now right; right].
      destruct (Z.max_spec d e) as [[_ M]|[_ M]]; rewrite M in *;
        [right; left | left]; exact C.
Qed.

(** The longest duration of a non-empty list, as [getStats] computes it. *)
Definition longestOf (l : list StudySession) : Z :=
  match l with
  | [] => 0
  | first :: others => maximum (duration first) (map duration others)
  end.

Lemma longestOf_spec l :
  l <> [] ->
  Forall (fun s => duration s <= longestOf l) l /\
  exists s, In s l /\ duration s = longestOf l.
Proof.
  destruct l as [|first others]; [congruence|]. intros _. simpl.
  destruct (maximum_spec (duration first) (map duration others)) as (A & B & C).
  split.
  - constructor; [exact A|]. apply Forall_forall. intros s Hs.
    rewrite Forall_forall in B. apply B. now apply in_map.
  - destruct C as [C|C].
    + exists first. split; [now left | exact C].
    + apply in_map_iff in C. destruct C as (s & E & Hs).
      exists s. split; [now right | exact E].
Qed.

Lemma longestOf_perm l l' :
  Permutation.Permutation l l' -> longestOf l = longestOf l'.
Proof.
  intros P. destruct l as [|x l0].
  - apply Permutation.Permutation_nil in P. now subst.
  - assert (N : x :: l0 <> []) by discriminate.
    assert (N' : l' <> []).
    { intros ->. apply Permutation.Permutation_sym,
        Permutation.Permutation_nil in P. discriminate. }
    destruct (longestOf_spec _ N) as (A & s & Hs & Es).
    destruct (longestOf_spec _ N') as (A' & s' & Hs' & Es').
    rewrite Forall_forall in A, A'.
    apply (Permutation.Permutation_in _ P) in Hs.
    apply (Permutation.Permutation_in _ (Permutation.Permutation_sym P)) in Hs'.
    specialize (A' s Hs). specialize (A s' Hs'). lia.
Qed.

(** *** The streak *)

Lemma streakFrom_le c l : (streakFrom c l <= length l)%nat.
Proof.
  revert c. induction l as [|s l IH]; intros c; simpl; [lia|].
  destruct ((c - startTime s) / msPerDay <=? 1); [|lia].
  specialize (IH (startTime s)). lia.
Qed.

Lemma streakFrom_all now l c :
  c <= now ->
  Forall (fun s => now - 2 * msPerDay < startTime s <= now) l ->
  streakFrom c l = length l.
Proof.
  intros Hc H. revert c Hc. induction H as [|s l Hs _ IH]; intros c Hc;
    [reflexivity|].
  simpl. replace ((c - startTime s) / msPerDay <=? 1) with true.
  - f_equal. apply IH. lia.
  - symmetry. apply counts_iff. lia.
Qed.

Lemma desc_perm_eq (l l' : list Z) :
  descending l -> descending l' -> Permutation.Permutation l l' -> l = l'.
Proof.
  revert l'. induction l as [|a r IH]; intros l' D D' P.
  - apply Permutation.Permutation_nil in P. now subst.
  - destruct l' as [|b r'].
    { apply Permutation.Permutation_sym, Permutation.Permutation_nil in P.
      discriminate. }
    simpl in D, D'. destruct D as [Da Dr]. destruct D' as [Db Dr'].
    rewrite Forall_forall in Da, Db.
    assert (Hab : a <= b).
    { assert (Hin : In a (b :: r'))
        by (apply (Permutation.Permutation_in _ P); now left).
      destruct Hin as [->|Hin]; [lia | now apply Db]. }
    assert (Hba : b <= a).
    { assert (Hin : In b (a :: r)).
      { apply (Permutation.Permutation_in _ (Permutation.Permutation_sym P)).
        now left. }
      destruct Hin as [->|Hin]; [lia | now apply Da]. }
    assert (E : a = b) by lia. subst b. f_equal.
    apply IH; trivial. now apply Permutation.Permutation_cons_inv in P.
Qed.

Lemma sorted_times_perm l l' :
  Permutation.Permutation l l' ->
  map startTime (sortNewestFirst l) = map startTime (sortNewestFirst l').
Proof.
  intros P. apply desc_perm_eq; try apply sortNewestFirst_descending.
  apply Permutation.Permutation_map.
  eapply Permutation.perm_trans;
    [apply Permutation.Permutation_sym, sortNewestFirst_perm|].
  eapply Permutation.perm_trans; [exact P | apply sortNewestFirst_perm].
Qed.

Lemma streakFrom_times c l l' :
  map startTime l = map startTime l' -> streakFrom c l = streakFrom c l'.
Proof.
  revert c l'. induction l as [|s l IH]; intros c [|s' l'] E;
    try discriminate; [reflexivity|].
  simpl in *. injection E as E1 E2. rewrite E1.
  now rewrite (IH (startTime s') l' E2).
Qed.

(** X20.  The totals of [getStats]: no sessions (also an empty or
    unparseable store) give the zero statistics; otherwise the session count
    is the number of stored sessions, no stored session is longer than
    [longestSession], which is the duration of one of them, and adding a
    session raises [totalStudyTime] by its duration. *)
Theorem getStats_totals (now : Z) (st : Stored) (x : StudySession) :
  (getSessions st = [] -> getStats now st = zeroStats) /\
  totalSessions (getStats now st) = length (getSessions st) /\
  Forall (fun s => duration s <= longestSession (getStats now st))
    (getSessions st) /\
  (getSessions st <> [] ->
   exists s, In s (getSessions st) /\
             duration s = longestSession (getStats now st)) /\
  totalStudyTime (getStats now (addSession x st)) =
    totalStudyTime (getStats now st) + duration x /\
  totalSessions (getStats now (addSession x st)) =
    S (totalSessions (getStats now st)).
Proof.
  assert (T : forall st', totalStudyTime (getStats now st') =
                          sumDurations (getSessions st')).
  { intros st'. unfold getStats. destruct (getSessions st') as [|f o];
      [reflexivity|]. cbn [totalStudyTime]. now rewrite fold_sum. }
  assert (N : forall st', totalSessions (getStats now st') =
                          length (getSessions st')).
  { intros st'. unfold getStats. now destruct (getSessions st'). }
  assert (L : getSessions st <> [] ->
              longestSession (getStats now st) = longestOf (getSessions st)).
  { unfold getStats. destruct (getSessions st); [congruence | reflexivity]. }
  split; [|split; [|split; [|split; [|split]]]].
  - unfold getStats. now intros ->.
  - apply N.
  - destruct (getSessions st) as [|f o] eqn:E; [constructor|].
    rewrite L by discriminate. apply longestOf_spec. discriminate.
  - intros H. rewrite (L H). now apply longestOf_spec.
  - rewrite !T. unfold addSession. cbn [getSessions].
    rewrite sumDurations_app. simpl. lia.
  - rewrite !N. unfold addSession. cbn [getSessions].
    rewrite length_app. simpl. lia.
Qed.

Lemma getStats_totals_witness :
  longestSession
    (getStats 1700100000000
       (Holds [Samples.monday; Samples.tuesday; Samples.mondayAgain])) = 3600 /\
  exists s, In s [Samples.monday; Samples.tuesday; Samples.mondayAgain] /\
            duration s = 3600.
Proof.
  split; [reflexivity|].
  apply (getStats_totals 1700100000000
           (Holds [Samples.monday; Samples.tuesday; Samples.mondayAgain])
           Samples.monday).
  discriminate.
Defined.

Lemma getStats_streak now st :
  currentStreak (getStats now st) = streakFrom now (sortNewestFirst (getSessions st)).
Proof. unfold getStats. now destruct (getSessions st). Qed.

(** X21.  [currentStreak] never exceeds the number of sessions, and it is 0
    exactly when every stored session started two days
    (172 800 000 ms) or more before now. *)
Theorem streak_zero_iff (now : Z) (st : Stored) :
  (currentStreak (getStats now st) <= totalSessions (getStats now st))%nat /\
  (currentStreak (getStats now st) = O <->
   forall s, In s (getSessions st) -> 2 * msPerDay <= now - startTime s).
Proof.
  rewrite getStats_streak. split.
  - replace (totalSessions (getStats now st)) with (length (getSessions st))
      by (unfold getStats; now destruct (getSessions st)).
    rewrite (Permutation.Permutation_length (sortNewestFirst_perm (getSessions st))).
    apply streakFrom_le.
  - destruct (sortNewestFirst (getSessions st)) as [|newest rest] eqn:E.
    + pose proof (sortNewestFirst_perm (getSessions st)) as P. rewrite E in P.
      apply Permutation.Permutation_sym, Permutation.Permutation_nil in P.
      rewrite P. simpl. split; [intros _ s [] | reflexivity].
    + destruct (sortNewestFirst_head _ _ _ E) as [Hin Hmax].
      simpl. destruct ((now - startTime newest) / msPerDay <=? 1) eqn:C.
      * apply counts_iff in C. split; [discriminate|].
        intros H. specialize (H newest Hin). unfold msPerDay in *. lia.
      * split; [|reflexivity]. intros _ s Hs. specialize (Hmax s Hs).
        assert (~ now - startTime newest < 2 * msPerDay).
        { intros H. apply counts_iff in H. congruence. }
        unfold msPerDay in *. lia.
Qed.

Lemma streak_zero_iff_witness :
  currentStreak
    (getStats 1700300000000
       (Holds [Samples.monday; Samples.tuesday; Samples.mondayAgain])) = O.
Proof.
  apply (proj2 (streak_zero_iff 1700300000000
                  (Holds [Samples.monday; Samples.tuesday; Samples.mondayAgain]))).
  intros s [<-|[<-|[<-|[]]]]; vm_compute; discriminate.
Defined.

(** X22.  The streak counts sessions, not days: when every stored session
    started within the two days up to now, [currentStreak] is the number of
    stored sessions. *)
Theorem streak_counts_sessions (now : Z) (st : Stored) :
  (forall s, In s (getSessions st) ->
             now - 2 * msPerDay < startTime s <= now) ->
  currentStreak (getStats now st) = totalSessions (getStats now st) /\
  currentStreak (getStats now st) = length (getSessions st).
Proof.
  intros H.
  assert (E : currentStreak (getStats now st) = length (getSessions st)).
  { rewrite getStats_streak.
    rewrite (Permutation.Permutation_length (sortNewestFirst_perm (getSessions st))).
    apply (streakFrom_all now); [lia|].
    apply Forall_forall. intros s Hs. apply H.
    apply (Permutation.Permutation_in _
             (Permutation.Permutation_sym (sortNewestFirst_perm _)) Hs). }
  split; [|exact E]. rewrite E. unfold getStats. now destruct (getSessions st).
Qed.

Lemma streak_counts_sessions_witness :
  currentStreak
    (getStats 1700100000000
       (Holds [Samples.monday; Samples.tuesday; Samples.mondayAgain])) = 3%nat.
Proof.
  apply (streak_counts_sessions 1700100000000
           (Holds [Samples.monday; Samples.tuesday; Samples.mondayAgain])).
  intros s [<-|[<-|[<-|[]]]]; vm_compute; (split; [reflexivity | discriminate]).
Defined.

(** X23.  The statistics do not depend on the order in which the sessions
    are stored: two stores holding the same sessions in any order give the
    same [getStats], and [lastStudyDate] is the latest start among them. *)
Theorem getStats_order_independent (now : Z) (st st' : Stored) :
  Permutation.Permutation (getSessions st) (getSessions st') ->
  getStats now st = getStats now st' /\
  (getSessions st <> [] ->
   exists newest,
     In newest (getSessions st) /\
     lastStudyDate (getStats now st) = Some (startTime newest) /\
     forall s, In s (getSessions st) -> startTime s <= startTime newest).
Proof.
  intros P. split.
  - pose proof (sorted_times_perm _ _ P) as ST.
    pose proof (sumDurations_perm _ _ P) as SD.
    pose proof (longestOf_perm _ _ P) as LO.
    pose proof (Permutation.Permutation_length P) as LE.
    unfold getStats.
    destruct (getSessions st) as [|f o] eqn:E;
      destruct (getSessions st') as [|f' o'] eqn:E'; try discriminate;
      [reflexivity|].
    rewrite !fold_sum, SD, LE.
    change (maximum (duration f) (map duration o)) with (longestOf (f :: o)).
    change (maximum (duration f') (map duration o')) with (longestOf (f' :: o')).
    rewrite LO, (streakFrom_times now _ _ ST).
    destruct (sortNewestFirst (f :: o)) as [|n r];
      destruct (sortNewestFirst (f' :: o')) as [|n' r']; try discriminate;
      [reflexivity|].
    simpl in ST. injection ST as -> _. reflexivity.
  - intros N.
    destruct (sortNewestFirst (getSessions st)) as [|newest rest] eqn:E.
    + pose proof (sortNewestFirst_perm (getSessions st)) as Q. rewrite E in Q.
      apply Permutation.Permutation_sym, Permutation.Permutation_nil in Q.
      contradiction.
    + destruct (sortNewestFirst_head _ _ _ E) as [Hin Hmax].
      exists newest. repeat split; trivial.
      unfold getStats. destruct (getSessions st); [contradiction|].
      cbn [lastStudyDate]. now rewrite E.
Qed.

Lemma getStats_order_independent_witness :
  getStats 1700100000000
    (Holds [Samples.monday; Samples.tuesday; Samples.mondayAgain]) =
  getStats 1700100000000
    (Holds [Samples.mondayAgain; Samples.monday; Samples.tuesday]).
Proof.
  apply (getStats_order_independent 1700100000000
           (Holds [Samples.monday; Samples.tuesday; Samples.mondayAgain])
           (Holds [Samples.mondayAgain; Samples.monday; Samples.tuesday])).
  simpl.
  apply (Permutation.Permutation_cons_app [Samples.mondayAgain]
           [Samples.tuesday] Samples.monday).
  apply (Permutation.Permutation_cons_app [Samples.mondayAgain] []
           Samples.tuesday).
  apply Permutation.Permutation_refl.
Defined.

End DataService.

(** * Time utilities (utils/TimeUtils.ts)

    Instants are milliseconds since the epoch and durations are whole
    seconds, both in [Z], as in the data service.  [Number.prototype.toString]
    of an integer is its decimal numeral, with a minus sign when negative. *)

Module TimeUtils.

Import String Ascii.
Local Open Scope Z_scope.

(** [calculateDuration], from the instants its two arguments denote:
    [Math.floor((end.getTime() - start.getTime()) / 1000)]. *)
Definition calculateDuration (startTime endTime : Z) : Z :=
  (endTime - startTime) / 1000.

(** [getElapsedTime], with [new Date()] at the instant [now]. *)
Definition getElapsedTime (now startTime : Z) : Z :=
  (now - startTime) / 1000.

(** [n.toString()] for an integer [n]. *)
Definition toString (n : Z) : string :=
  DecimalString.NilZero.string_of_int (Z.to_int n).

Fixpoint replicate (n : nat) (c : ascii) : string :=
  match n with
  | O => EmptyString
  | S k => String c (replicate k c)
  end.

(** [str.padStart(targetLength, padChar)] for a one-character pad string. *)
Definition padStart (targetLength : nat) (padChar : ascii) (str : string) : string :=
  (replicate (targetLength - String.length str) padChar ++ str)%string.

(** [n.toString().padStart(2, '0')]. *)
Definition pad2 (n : Z) : string := padStart 2 "0"%char (toString n).

(** [formatDuration]: [Math.floor(seconds / 3600)],
    [Math.floor((seconds % 3600) / 60)] and [seconds % 60], where [%] takes
    the sign of its left operand. *)
Definition formatDuration (seconds : Z) : string :=
  let hours := seconds / 3600 in
  let minutes := Z.rem seconds 3600 / 60 in
  let secs := Z.rem seconds 60 in
  if (0 <? hours)%Z
  then (pad2 hours ++ ":" ++ pad2 minutes ++ ":" ++ pad2 secs)%string
  else (pad2 minutes ++ ":" ++ pad2 secs)%string.

(** The character of a decimal digit, and the two digits of a number below
    100. *)
Definition digitChar (d : Z) : ascii := ascii_of_nat (48 + Z.to_nat d).

Definition twoDigits (n : Z) : string :=
  String (digitChar (n / 10)) (String (digitChar (n mod 10)) EmptyString).

Lemma pad2_twoDigits n : 0 <= n < 100 -> pad2 n = twoDigits n.
Proof.
  intros H.
  assert (A : forallb (fun k => String.eqb (pad2 (Z.of_nat k))
                                   (twoDigits (Z.of_nat k))) (seq 0 100) = true)
    by (vm_compute; reflexivity).
  rewrite forallb_forall in A. specialize (A (Z.to_nat n)).
  rewrite Z2Nat.id in A by lia. apply String.eqb_eq. apply A.
  apply in_seq. lia.
Qed.

Lemma digitChar_inj a b :
  0 <= a < 10 -> 0 <= b < 10 -> digitChar a = digitChar b -> a = b.
Proof.
  unfold digitChar. intros Ha Hb E. apply (f_equal nat_of_ascii) in E.
  rewrite !nat_ascii_embedding in E by lia. lia.
Qed.

Lemma twoDigits_inj a b :
  0 <= a < 100 -> 0 <= b < 100 -> twoDigits a = twoDigits b -> a = b.
Proof.
  unfold twoDigits. intros Ha Hb E. injection E as E1 E2.
  pose proof (f_equal nat_of_ascii E1) as N1.
  pose proof (f_equal nat_of_ascii E2) as N2.
  unfold digitChar in N1, N2.
  rewrite !nat_ascii_embedding in N1, N2
    by (pose proof (Z.mod_pos_bound a 10); pose proof (Z.mod_pos_bound b 10);
        assert (0 <= a / 10 < 10) by (split; [apply Z.div_pos; lia |
          apply Z.div_lt_upper_bound; lia]);
        assert (0 <= b / 10 < 10) by (split; [apply Z.div_pos; lia |
          apply Z.div_lt_upper_bound; lia]); lia).
  assert (D1 : a / 10 = b / 10).
  { assert (0 <= a / 10) by (apply Z.div_pos; lia).
    assert (0 <= b / 10) by (apply Z.div_pos; lia). lia. }
  assert (D2 : a mod 10 = b mod 10).
  { pose proof (Z.mod_pos_bound a 10). pose proof (Z.mod_pos_bound b 10). lia. }
  rewrite (Z.div_mod a 10), (Z.div_mod b 10) by lia. now rewrite D1, D2.
Qed.

(** The rendering of a duration of less than a hundred hours. *)
Lemma formatDuration_render s :
  0 <= s < 360000 ->
  formatDuration s =
  if s <? 3600
  then (twoDigits (s / 60) ++ ":" ++ twoDigits (s mod 60))%string
  else (twoDigits (s / 3600) ++ ":" ++ twoDigits (s mod 3600 / 60) ++ ":"
        ++ twoDigits (s mod 60))%string.
Proof.
  intros H. unfold formatDuration.
  rewrite !Z.rem_mod_nonneg by lia.
  assert (M : 0 <= s mod 3600 < 3600) by (apply Z.mod_pos_bound; lia).
  assert (C : 0 <= s mod 60 < 60) by (apply Z.mod_pos_bound; lia).
  assert (Q : 0 <= s mod 3600 / 60 < 60).
  { split; [apply Z.div_pos; lia | apply Z.div_lt_upper_bound; lia]. }
  rewrite (pad2_twoDigits (s mod 60)), (pad2_twoDigits (s mod 3600 / 60)) by lia.
  destruct (s <? 3600) eqn:L.
  - apply Z.ltb_lt in L. rewrite Z.div_small, Z.mod_small by lia. reflexivity.
  - apply Z.ltb_ge in L.
    assert (Hh : 1 <= s / 3600 < 100).
    { split; [apply Z.div_le_lower_bound; lia | apply Z.div_lt_upper_bound; lia]. }
    replace (0 <? s / 3600) with true by (symmetry; apply Z.ltb_lt; lia).
    now rewrite (pad2_twoDigits (s / 3600)) by lia.
Qed.

(** X24.  [calculateDuration] is the span in whole seconds, rounded down
    also for a negative span: it is non-negative exactly when the end is not
    before the start, two adjacent spans add up to the whole span or to one
    second less, and a span of [d] full seconds gives [d];
    [getElapsedTime] is the same measure up to now. *)
Theorem calculateDuration_whole_seconds (a b c d : Z) :
  1000 * calculateDuration a b <= b - a < 1000 * calculateDuration a b + 1000 /\
  (0 <= calculateDuration a b <-> a <= b) /\
  calculateDuration a b + calculateDuration b c <= calculateDuration a c /\
  calculateDuration a c <= calculateDuration a b + calculateDuration b c + 1 /\
  calculateDuration a (a + d * 1000) = d /\
  getElapsedTime b a = calculateDuration a b.
Proof.
  unfold calculateDuration, getElapsedTime.
  pose proof (Z.div_mod (b - a) 1000 ltac:(lia)) as Eab.
  pose proof (Z.mod_pos_bound (b - a) 1000 ltac:(lia)) as Bab.
  pose proof (Z.div_mod (c - b) 1000 ltac:(lia)) as Ebc.
  pose proof (Z.mod_pos_bound (c - b) 1000 ltac:(lia)) as Bbc.
  pose proof (Z.div_mod (c - a) 1000 ltac:(lia)) as Eac.
  pose proof (Z.mod_pos_bound (c - a) 1000 ltac:(lia)) as Bac.
  repeat split; try lia.
  replace (a + d * 1000 - a) with (d * 1000) by lia.
  apply Z.div_mul. lia.
Qed.

(** X25.  For a duration from 0 to just under a hundred hours,
    [formatDuration] gives [MM:SS] below one hour and [HH:MM:SS] from one
    hour on, every field with exactly two decimal digits; on these durations
    different durations have different texts. *)
Theorem formatDuration_clock (s s' : Z) :
  0 <= s < 360000 ->
  formatDuration s =
    (if s <? 3600
     then (twoDigits (s / 60) ++ ":" ++ twoDigits (s mod 60))%string
     else (twoDigits (s / 3600) ++ ":" ++ twoDigits (s mod 3600 / 60) ++ ":"
           ++ twoDigits (s mod 60))%string) /\
  String.length (formatDuration s) = (if s <? 3600 then 5%nat else 8%nat) /\
  (0 <= s' < 360000 -> formatDuration s = formatDuration s' -> s = s').
Proof.
  intros H. split; [now apply formatDuration_render|]. split.
  - rewrite formatDuration_render by exact H. destruct (s <? 3600); reflexivity.
  - intros H' E. rewrite !formatDuration_render in E by assumption.
    assert (B : forall t, 0 <= t < 360000 ->
                0 <= t mod 60 < 100 /\ 0 <= t mod 3600 / 60 < 100 /\
                0 <= t / 3600 < 100 /\ (t < 3600 -> 0 <= t / 60 < 100)).
    { intros t Ht.
      pose proof (Z.mod_pos_bound t 60 ltac:(lia)).
      pose proof (Z.mod_pos_bound t 3600 ltac:(lia)).
      repeat split; try lia;
        try (apply Z.div_pos; lia); try (apply Z.div_lt_upper_bound; lia). }
    destruct (B s H) as (B1 & B2 & B3 & B4).
    destruct (B s' H') as (B1' & B2' & B3' & B4').
    destruct (s <? 3600) eqn:L; destruct (s' <? 3600) eqn:L';
      try (apply Z.ltb_lt in L); try (apply Z.ltb_ge in L);
      try (apply Z.ltb_lt in L'); try (apply Z.ltb_ge in L');
      unfold twoDigits in E; simpl in E; try discriminate E.
    + injection E as E1 E2 E3 E4.
      assert (A1 : s / 60 = s' / 60).
      { apply twoDigits_inj; [lia | lia |]. unfold twoDigits. congruence. }
      assert (A2 : s mod 60 = s' mod 60).
      { apply twoDigits_inj; [lia | lia |]. unfold twoDigits. congruence. }
      rewrite (Z.div_mod s 60), (Z.div_mod s' 60) by lia. now rewrite A1, A2.
    + injection E as E1 E2 E3 E4 E5 E6.
      assert (A1 : s / 3600 = s' / 3600).
      { apply twoDigits_inj; [lia | lia |]. unfold twoDigits. congruence. }
      assert (A2 : s mod 3600 / 60 = s' mod 3600 / 60).
      { apply twoDigits_inj; [lia | lia |]. unfold twoDigits. congruence. }
      assert (A3 : s mod 60 = s' mod 60).
      { apply twoDigits_inj; [lia | lia |]. unfold twoDigits. congruence. }
      assert (A4 : s mod 3600 = s' mod 3600).
      { rewrite (Z.div_mod (s mod 3600) 60), (Z.div_mod (s' mod 3600) 60) by lia.
        rewrite A2. f_equal.
        rewrite !Z.mod_mod_divide by (exists 60; lia). exact A3. }
      rewrite (Z.div_mod s 3600), (Z.div_mod s' 3600) by lia.
      now rewrite A1, A4.
Qed.

Lemma formatDuration_clock_witness :
  formatDuration 3725 = "01:02:05"%string /\
  (formatDuration 3725 = formatDuration 3725 -> 3725 = 3725).
Proof.
  destruct (formatDuration_clock 3725 3725) as (A & _ & B); [lia|].
  split; [exact A|]. apply B. lia.
Defined.

(** X26.  For a duration that is 0 or negative (an elapsed time taken
    against a start instant that lies ahead of the clock),
    [formatDuration] never shows an hours field, so whole hours are lost:
    the text for [s - 3600] is the text for [s]. *)
Theorem formatDuration_nonpositive (s : Z) :
  s <= 0 ->
  formatDuration s =
    (pad2 (Z.rem s 3600 / 60) ++ ":" ++ pad2 (Z.rem s 60))%string /\
  formatDuration (s - 3600) = formatDuration s.
Proof.
  intros H.
  assert (N : forall t, t <= 0 ->
            formatDuration t =
            (pad2 (Z.rem t 3600 / 60) ++ ":" ++ pad2 (Z.rem t 60))%string).
  { intros t Ht. unfold formatDuration.
    replace (0 <? t / 3600) with false; [reflexivity|].
    symmetry. apply Z.ltb_ge.
    assert (t / 3600 < 1) by (apply Z.div_lt_upper_bound; lia). lia. }
  split; [now apply N|].
  rewrite !N by lia.
  replace (s - 3600) with (s + (-1) * 3600) at 1 by lia.
  replace (s - 3600) with (s + (-60) * 60) by lia.
  rewrite !Z.rem_add by nia. reflexivity.
Qed.

Lemma formatDuration_nonpositive_witness :
  formatDuration (-3700) = formatDuration (-100) /\
  formatDuration (-100) = "-2:-40"%string.
Proof.
  split.
  - apply (formatDuration_nonpositive (-100)). lia.
  - reflexivity.
Defined.

End TimeUtils.
